(** * The clipboard-history service of vicinae

    A shallow embedding of [src/services/clipboard/clipboard-service.cpp]
    (class [ClipboardService]) and the properties its specification states
    about the capture-to-storage pipeline.

    Conventions of the embedding.
    - [QString] and [QByteArray] are both Rocq strings (sequences of 8-bit
      characters): a [QString] is held as its UTF-8 encoding, so [toUtf8] is
      the identity, and so is [fromUtf8] on a hex digest. Decoding bytes that
      need not be valid UTF-8 (the cut of a payload in
      [getOfferTextPreview]) is the platform call [QString_fromUtf8].
    - The calls into Qt and into [Crypto::] whose results the service only
      passes on (MD5, URL parsing, HTML rendering, image headers, AES-GCM) are
      the members of the class [Platform]; every theorem about the service
      holds for every platform.
    - The calls into [std::filesystem] that raise [filesystem_error]
      ([fs::remove], [fs::remove_all], [fs::create_directories]) read from
      outside whether they raise; an operation they abort returns
      no value ([None]) and leaves the state reached at the raise.
    - The outcome of each fallible step of one [saveSelection] call (SQL
      statements, opening and writing the blob file) and the two UUIDs it
      draws are read from a [SaveEnv].
    - [ClipboardDatabase] (clipboard-db.hpp) is not part of the sources at
      hand: its operations are modelled from the specification, section 4.3,
      and marked so. *)

From Stdlib Require Import String Ascii List ZArith Bool Lia Permutation.
From stdpp Require Import gmap strings list pretty.
Import ListNotations.
Local Open Scope string_scope.
Local Open Scope list_scope.

(** ** Strings *)

Abbreviation QString := string.
Abbreviation QByteArray := string.

(** [s.startsWith(p)] *)
Fixpoint startsWith (s p : string) {struct p} : bool :=
  match p with
  | EmptyString => true
  | String c p' =>
      match s with
      | EmptyString => false
      | String d s' => Ascii.eqb d c && startsWith s' p'
      end
  end.

(** [s.isEmpty()] *)
Definition isEmpty (s : string) : bool :=
  match s with EmptyString => true | String _ _ => false end.

(** [s.mid(0, n)] *)
Definition mid0 (n : nat) (s : string) : string := substring 0 n s.

(** ** Data model *)

Record ClipboardDataOffer := mkOffer { mimeType : QString; data : QByteArray }.

Record ClipboardSelection := mkSelection {
  offers : list ClipboardDataOffer;
  sourceApp : option QString
}.

Module ClipboardOfferKind.
Inductive t := Text | Image | Link | Unknown.
End ClipboardOfferKind.

Module ClipboardEncryptionType.
Inductive t := None | Local.
End ClipboardEncryptionType.

(** What the service reads off a [QUrl]. *)
Record QUrl := mkUrl { isValid : bool; scheme : QString; host : QString }.

(** The library calls of the service. *)
Class Platform := {
  (** [QCryptographicHash::hash(d, Md5).toHex()] *)
  md5Hex : QByteArray -> QByteArray;
  (** [QUrl::fromEncoded(d, QUrl::StrictMode)] *)
  QUrl_fromEncoded : QByteArray -> QUrl;
  (** [QTextDocument doc; doc.setHtml(fromUtf8(d)); doc.toPlainText().toUtf8()] *)
  toPlainText : QByteArray -> QByteArray;
  (** [QByteArray::simplified] *)
  simplified : QByteArray -> QByteArray;
  (** [QString(const QByteArray &)], which is [QString::fromUtf8]: the
      conversion of the returned bytes at line 316 *)
  QString_fromUtf8 : QByteArray -> QString;
  (** [QImageReader::size], [Some] when the size is valid *)
  QImageReader_size : QByteArray -> option (Z * Z);
  (** [Crypto::AES256GCM::encrypt(data, key)] *)
  AES256GCM_encrypt : QByteArray -> QByteArray -> QByteArray;
  (** [Clipboard::CONCEALED_MIME_TYPE] *)
  CONCEALED_MIME_TYPE : QString
}.

(** ** Classification: getKind and getSelectionPreferredMimeType *)

(** The range [applicationTexts] of [getKind]. *)
Definition applicationTexts : list QString :=
  map (fun text => "application/" +:+ text) ["json"; "xml"; "javascript"; "sql"].

(** [std::ranges::contains] on strings *)
Definition contains (l : list QString) (s : QString) : bool :=
  existsb (String.eqb s) l.

(** [ClipboardService::getKind], lines 180-200. *)
Definition getKind `{Platform} (offer : ClipboardDataOffer) : ClipboardOfferKind.t :=
  if startsWith (mimeType offer) "image/" then ClipboardOfferKind.Image
  else if startsWith (mimeType offer) "text/" then
    if String.eqb (mimeType offer) "text/html" then ClipboardOfferKind.Text
    else
      let url := QUrl_fromEncoded (data offer) in
      if isValid url && negb (isEmpty (scheme url)) then ClipboardOfferKind.Link
      else ClipboardOfferKind.Text
  else if startsWith (mimeType offer) "application/"
          && contains applicationTexts (mimeType offer)
  then ClipboardOfferKind.Text
  else ClipboardOfferKind.Unknown.

(** The local enum of [getSelectionPreferredMimeType]. *)
Module SelectionPriority.
Definition Invalid : nat := 0.
Definition Other : nat := 1.
Definition HtmlText : nat := 2.
Definition Text : nat := 3.
Definition GenericImage : nat := 4.
Definition ImageJpeg : nat := 5.
Definition ImagePng : nat := 6.
Definition ImageSvg : nat := 7.
End SelectionPriority.

(** The value [mimePriority] takes in one round of the loop, lines 217-234. *)
Definition mimePriority (mime : QString) : nat :=
  if startsWith mime "text/" then
    if String.eqb mime "text/plain" then SelectionPriority.Text
    else if String.eqb mime "text/html" then SelectionPriority.HtmlText
    else if String.eqb mime "text/svg" then SelectionPriority.ImageSvg
    else SelectionPriority.Text
  else if String.eqb mime "image/jpeg" then SelectionPriority.ImageJpeg
  else if String.eqb mime "image/png" then SelectionPriority.ImagePng
  else if String.eqb mime "image/svg+xml" then SelectionPriority.ImageSvg
  else SelectionPriority.Other.

(** The loop of [getSelectionPreferredMimeType] from a given state
    [(priority, preferredMimeType)]. *)
Fixpoint preferredLoop (l : list ClipboardDataOffer) (priority : nat)
    (preferredMimeType : QString) : QString :=
  match l with
  | [] => preferredMimeType
  | offer :: l' =>
      if startsWith (mimeType offer) "text/_moz_html"
      then preferredLoop l' priority preferredMimeType
      else if (priority <? mimePriority (mimeType offer))%nat
      then preferredLoop l' (mimePriority (mimeType offer)) (mimeType offer)
      else preferredLoop l' priority preferredMimeType
  end.

(** [ClipboardService::getSelectionPreferredMimeType], lines 202-241. *)
Definition getSelectionPreferredMimeType (selection : ClipboardSelection) : QString :=
  preferredLoop (offers selection) SelectionPriority.Invalid "".

(** ** The metadata database *)

(** The designated initializer of [insertSelection], lines 394-399. *)
Record InsertSelectionPayload := mkSelectionPayload {
  sp_id : QString;
  sp_offerCount : nat;
  sp_hash : QString;
  sp_preferredMimeType : QString;
  sp_kind : ClipboardOfferKind.t;
  sp_source : option QString
}.

(** [InsertClipboardOfferPayload], lines 416-424 and 428. *)
Record InsertClipboardOfferPayload := mkOfferPayload {
  op_id : QString;
  op_selectionId : QString;
  op_mimeType : QString;
  op_textPreview : QString;
  op_md5sum : QByteArray;
  op_encryption : ClipboardEncryptionType.t;
  op_size : nat;
  op_urlHost : option QString
}.

(** The members of [ClipboardHistoryEntry] that [saveSelection] assigns. *)
Record ClipboardHistoryEntry := mkEntry {
  he_id : QString;
  he_pinnedAt : nat;
  he_updatedAt : nat;
  he_mimeType : QString;
  he_md5sum : QByteArray;
  he_textPreview : QString
}.

(** A default-constructed [ClipboardHistoryEntry]. *)
Definition defaultEntry : ClipboardHistoryEntry := mkEntry "" 0 0 "" "" "".

Module ClipboardDatabase.

(** A row of the selections table: what was inserted, its recency stamp
    and its pin flag. *)
Record SelectionRow := mkRow {
  payload : InsertSelectionPayload;
  updatedAt : nat;
  pinned : bool
}.

(** Modelled from the spec: the class ClipboardDatabase (clipboard-db.hpp)
    is missing from the sources. Section 6, persisted layout: one metadata
    store with a selections and an offers table; section 4.3 step 3 adds
    the indexed plain-text content. *)
Record t := mk {
  selectionTable : list SelectionRow;
  offerTable : list InsertClipboardOfferPayload;
  contentIndex : list (QString * QByteArray)
}.

Definition emptyDb : t := mk [] [] [].

Definition hasHash (hash : QString) (r : SelectionRow) : bool :=
  String.eqb (sp_hash (payload r)) hash.

Definition hasId (id : QString) (r : SelectionRow) : bool :=
  String.eqb (sp_id (payload r)) id.

Definition touch (now : nat) (r : SelectionRow) : SelectionRow :=
  mkRow (payload r) now (pinned r).

(** Modelled from the spec: tryBubbleUpSelection is missing from the
    sources. Section 4.3 step 2: if a Selection with this hash exists,
    refresh its recency (bubble-up) and return success; section 3: only its
    recency/rank is updated, no new row or blob is written. *)
Definition tryBubbleUpSelection (now : nat) (hash : QString) (db : t) : t * bool :=
  if existsb (hasHash hash) (selectionTable db)
  then (mk (map (fun r => if hasHash hash r then touch now r else r) (selectionTable db))
           (offerTable db) (contentIndex db), true)
  else (db, false).

(** Modelled from the spec: insertSelection is missing from the sources.
    Section 4.3 step 3: insert the Selection row; [ok] is whether the
    statement went through. *)
Definition insertSelection (ok : bool) (now : nat) (p : InsertSelectionPayload)
    (db : t) : t * bool :=
  if ok
  then (mk (selectionTable db ++ [mkRow p now false]) (offerTable db) (contentIndex db), true)
  else (db, false).

(** Modelled from the spec: indexSelectionContent is missing from the
    sources. Section 4.3 step 3: index the plain-text content for search. *)
Definition indexSelectionContent (ok : bool) (selectionId : QString)
    (content : QByteArray) (db : t) : t * bool :=
  if ok
  then (mk (selectionTable db) (offerTable db) (contentIndex db ++ [(selectionId, content)]), true)
  else (db, false).

(** Modelled from the spec: insertOffer is missing from the sources.
    Section 4.3 step 3: insert the Offer row. *)
Definition insertOffer (ok : bool) (dto : InsertClipboardOfferPayload) (db : t) : t * bool :=
  if ok
  then (mk (selectionTable db) (offerTable db ++ [dto]) (contentIndex db), true)
  else (db, false).

(** Modelled from the spec: transaction is missing from the sources.
    Section 4.3: the steps run inside a single atomic transaction, and a
    failing step aborts it. The handler's database writes are kept when it
    returns true and undone when it returns false; what the handler did
    outside the database ([A]: files, captured variables) is not undone. *)
Definition transaction {A : Type} (handler : t -> t * A * bool) (db : t) : t * A * bool :=
  let '(db', a, ok) := handler db in
  (if ok then db' else db, a, ok).

(** Modelled from the spec: removeSelection is missing from the sources.
    Section 4.3: deletes the Selection row and all its Offer rows, returning
    the list of Offer identifiers that were removed. *)
Definition removeSelection (selectionId : QString) (db : t) : t * list QString :=
  if existsb (hasId selectionId) (selectionTable db)
  then
    let gone := List.filter (fun o => String.eqb (op_selectionId o) selectionId) (offerTable db) in
    (mk (List.filter (fun r => negb (hasId selectionId r)) (selectionTable db))
        (List.filter (fun o => negb (String.eqb (op_selectionId o) selectionId)) (offerTable db))
        (contentIndex db),
     map op_id gone)
  else (db, []).

(** Modelled from the spec: removeAll is missing from the sources.
    Section 4.3: clears all metadata. *)
Definition removeAll (ok : bool) (db : t) : t * bool :=
  if ok then (emptyDb, true) else (db, false).

(** Modelled from the spec: setPinned is missing from the sources.
    Section 4.3: toggles pin state and reports whether the row existed. *)
Definition setPinned (id : QString) (value : bool) (db : t) : t * bool :=
  if existsb (hasId id) (selectionTable db)
  then (mk (map (fun r => if hasId id r then mkRow (payload r) (updatedAt r) value else r)
                (selectionTable db))
           (offerTable db) (contentIndex db), true)
  else (db, false).

End ClipboardDatabase.

(** ** The service *)

(** The signals of [ClipboardService]. *)
Inductive Signal :=
| itemInserted (entry : ClipboardHistoryEntry)
| selectionRemoved (selectionId : QString)
| allSelectionsRemoved
| selectionPinStatusChanged (id : QString) (pinned : bool)
| monitoringChanged (value : bool).

(** What an observer of one call sees, in order: how the database
    transaction ended, and the signals emitted. *)
Inductive Effect :=
| Commit
| Rollback
| Emit (s : Signal).

(** The members of [ClipboardService] the pipeline reads and writes, the
    metadata database every [ClipboardDatabase] handle opens, and the files
    of the directory [m_dataDir] by name. *)
Record ClipboardService := mkService {
  m_monitoring : bool;
  m_isEncryptionReady : bool;
  m_localEncryptionKey : option QByteArray;
  database : ClipboardDatabase.t;
  m_dataDir : gmap QString QByteArray
}.

(** What one call of [saveSelection] draws from outside: the two results of
    [Crypto::UUID::v4], the time the database stamps rows with, and whether
    each fallible step goes through. *)
Record SaveEnv := mkEnv {
  uuid_selection : QString;
  uuid_offer : QString;
  now : nat;
  insertSelection_ok : bool;
  indexSelectionContent_ok : bool;
  insertOffer_ok : bool;
  open_ok : bool;
  write_ok : bool
}.

(** [ClipboardService::isClearSelection], lines 310-313. *)
Definition isClearSelection (selection : list ClipboardDataOffer) : bool :=
  Nat.eqb (fold_left (fun acc item => acc + String.length (data item)) selection 0) 0.

(** [ClipboardService::getOfferTextPreview], lines 315-332. *)
Definition getOfferTextPreview `{Platform} (offer : ClipboardDataOffer) : QString :=
  if startsWith (mimeType offer) "text/"
  then QString_fromUtf8 (mid0 50 (simplified (data offer)))
  else if startsWith (mimeType offer) "image/" then
    match QImageReader_size (data offer) with
    | Some (w, h) => "Image (" +:+ pretty w +:+ "x" +:+ pretty h +:+ ")"
    | None => "Image"
    end
  else "Unnamed".

(** ** saveSelection *)

(** [std::erase_if(v, pred)] *)
Definition erase_if {A : Type} (pred : A -> bool) (v : list A) : list A :=
  List.filter (fun x => negb (pred x)) v.

(** The comparison handed to [std::ranges::unique], line 346. *)
Definition sameMimeType (a b : ClipboardDataOffer) : bool :=
  String.eqb (mimeType a) (mimeType b).

(** The compaction loop of [std::ranges::unique] over the slots of the
    vector: [front ++ [dest]] are the slots up to the write position,
    [gap] the slots between the write and the read position, [rest] the
    slots from the read position on. An element that starts a new run is
    move-assigned into the first slot of the gap; the move assignment of
    [QString] and [QByteArray] swaps, so the element that was there ends up in
    the slot just read. While the gap is empty the element already is in
    place. *)
Fixpoint uniqueLoop (front : list ClipboardDataOffer) (dest : ClipboardDataOffer)
    (gap rest : list ClipboardDataOffer) : list ClipboardDataOffer :=
  match rest with
  | [] => front ++ dest :: gap
  | x :: rest' =>
      if sameMimeType dest x then uniqueLoop front dest (gap ++ [x]) rest'
      else
        match gap with
        | [] => uniqueLoop (front ++ [dest]) x [] rest'
        | g :: gap' => uniqueLoop (front ++ [dest]) x (gap' ++ [g]) rest'
        end
  end.

(** The vector after [std::ranges::unique(v, sameMimeType)], line 346. The
    call returns the subrange of left-over slots and the caller drops it:
    nothing is erased, the vector keeps its size. *)
Definition ranges_unique (v : list ClipboardDataOffer) : list ClipboardDataOffer :=
  match v with
  | [] => []
  | x :: rest => uniqueLoop [] x [] rest
  end.

(** [selection.offers] after lines 345-346. *)
Definition filterOffers (v : list ClipboardDataOffer) : list ClipboardDataOffer :=
  ranges_unique (erase_if (fun offer => isEmpty (data offer)) v).

(** [isConcealed], lines 350-351. *)
Definition isConcealed `{Platform} (v : list ClipboardDataOffer) : bool :=
  existsb (fun offer => String.eqb (mimeType offer) CONCEALED_MIME_TYPE) v.

(** [(offerData, mimeTypeToSave)] after lines 358-381, [None] for the
    early return of line 380. *)
Definition chooseRepresentative `{Platform} (v : list ClipboardDataOffer)
    : option (QByteArray * QString) :=
  let plainIt := find (fun offer => String.eqb (mimeType offer) "text/plain") v in
  let imageIt := find (fun offer => startsWith (mimeType offer) "image/") v in
  let htmlIt := find (fun offer => String.eqb (mimeType offer) "text/html") v in
  match plainIt with
  | Some plain => Some (data plain, "text/plain")
  | None =>
      match imageIt with
      | Some image => Some (data image, mimeType image)
      | None =>
          match htmlIt with
          | Some html => Some (toPlainText (data html), "text/plain")
          | None => None
          end
      end
  end.

(** What the handler of lines 388-452 writes outside the database: files of
    the data directory and the captured [insertedEntry]. *)
Definition Outside : Type := gmap QString QByteArray * ClipboardHistoryEntry.

(** The handler passed to [cdb.transaction], lines 388-452. *)
Definition saveHandler `{Platform} (env : SaveEnv) (key : option QByteArray)
    (source : option QString) (offerData : QByteArray) (mimeTypeToSave : QString)
    (selectionHash : QString) (out : Outside) (db : ClipboardDatabase.t)
    : ClipboardDatabase.t * Outside * bool :=
  let '(db, bubbled) := ClipboardDatabase.tryBubbleUpSelection (now env) selectionHash db in
  if bubbled then (db, out, true) else
  let selectionId := uuid_selection env in
  let kind := getKind (mkOffer mimeTypeToSave offerData) in
  let '(db, inserted) :=
    ClipboardDatabase.insertSelection (insertSelection_ok env) (now env)
      (mkSelectionPayload selectionId 1 selectionHash mimeTypeToSave kind source) db in
  if negb inserted then (db, out, false) else
  let textPreview := getOfferTextPreview (mkOffer mimeTypeToSave offerData) in
  let '(db, indexed) :=
    match kind with
    | ClipboardOfferKind.Text | ClipboardOfferKind.Link =>
        ClipboardDatabase.indexSelectionContent (indexSelectionContent_ok env)
          selectionId offerData db
    | _ => (db, true)
    end in
  if negb indexed then (db, out, false) else
  let md5sum := md5Hex offerData in
  let offerId := uuid_offer env in
  let encryption :=
    match key with
    | Some _ => ClipboardEncryptionType.Local
    | None => ClipboardEncryptionType.None
    end in
  let urlHost :=
    match kind with
    | ClipboardOfferKind.Link =>
        let url := QUrl_fromEncoded offerData in
        if startsWith (scheme url) "http" then Some (host url) else None
    | _ => None
    end in
  let dto := mkOfferPayload offerId selectionId mimeTypeToSave textPreview md5sum
               encryption (String.length offerData) urlHost in
  (* the result of insertOffer is dropped, line 431 *)
  let '(db, _) := ClipboardDatabase.insertOffer (insertOffer_ok env) dto db in
  if negb (open_ok env) then (db, out, false) else
  (* QFile::open(WriteOnly) creates or truncates the file *)
  let files := <[offerId := ""]> (fst out) in
  (* the result of QFile::write is dropped, lines 439 and 441 *)
  let files :=
    if write_ok env then
      match key with
      | Some k => <[offerId := AES256GCM_encrypt offerData k]> files
      | None => <[offerId := offerData]> files
      end
    else files in
  (db, (files, mkEntry selectionId 0 0 mimeTypeToSave md5sum textPreview), true).

(** [ClipboardService::saveSelection], lines 342-455. *)
Definition saveSelection `{Platform} (env : SaveEnv) (selection : ClipboardSelection)
    (svc : ClipboardService) : ClipboardService * list Effect :=
  if negb (m_monitoring svc) || negb (m_isEncryptionReady svc) then (svc, []) else
  let v := filterOffers (offers selection) in
  if isClearSelection v then (svc, []) else
  if isConcealed v then (svc, []) else
  match chooseRepresentative v with
  | None => (svc, [])
  | Some (offerData, mimeTypeToSave) =>
      let selectionHash := md5Hex offerData in
      let '(db, (files, insertedEntry), committed) :=
        ClipboardDatabase.transaction
          (saveHandler env (m_localEncryptionKey svc) (sourceApp selection)
             offerData mimeTypeToSave selectionHash (m_dataDir svc, defaultEntry))
          (database svc) in
      (mkService (m_monitoring svc) (m_isEncryptionReady svc) (m_localEncryptionKey svc)
         db files,
       [if committed then Commit else Rollback; Emit (itemInserted insertedEntry)])
  end.

(** ** The other operations of the service *)

(** The loop of lines 246-248: [fs::remove(m_dataDir / offer)] for each
    reported offer, in order. [fs::remove] is the overload that raises
    [filesystem_error]: a file that is not there is no error, any other failure
    of the operating system is, and [fsError offer] tells for which files it
    occurs. The result is the directory when the loop ends, and whether it
    ended in a raise; the files after the one that raised are not visited. *)
Fixpoint removeFiles (fsError : QString -> bool) (removed : list QString)
    (files : gmap QString QByteArray) : gmap QString QByteArray * bool :=
  match removed with
  | [] => (files, false)
  | offer :: rest =>
      if fsError offer then (files, true)
      else removeFiles fsError rest (delete offer files)
  end.

(** [ClipboardService::removeSelection], lines 243-253. The result is [None]
    when an exception leaves the function: lines 250-252 are not reached. The
    database handle has deleted the rows by then. *)
Definition removeSelection (fsError : QString -> bool) (selectionId : QString)
    (svc : ClipboardService) : ClipboardService * list Effect * option bool :=
  let '(db, removed) := ClipboardDatabase.removeSelection selectionId (database svc) in
  let '(files, raised) := removeFiles fsError removed (m_dataDir svc) in
  let svc' := mkService (m_monitoring svc) (m_isEncryptionReady svc)
                (m_localEncryptionKey svc) db files in
  if raised then (svc', [], None)
  else (svc', [Emit (selectionRemoved selectionId)], Some true).

(** How the two filesystem calls of [removeAllSelections], lines 510-511, end:
    both go through; [fs::remove_all] raises having deleted the files that do
    not [survive]; or [fs::create_directories] raises, with the directory
    already gone. *)
Inductive ClearOutcome :=
| Cleared
| RemoveAllRaised (survives : QString -> bool)
| CreateDirectoriesRaised.

(** [ClipboardService::removeAllSelections], lines 505-516; [ok] is the
    result of [db.removeAll()]. The result is [None] when an exception leaves
    the function: lines 513-515 are not reached, the metadata is cleared. *)
Definition removeAllSelections (ok : bool) (fs : ClearOutcome) (svc : ClipboardService)
    : ClipboardService * list Effect * option bool :=
  let '(db, done) := ClipboardDatabase.removeAll ok (database svc) in
  if negb done then (svc, [], Some false)
  else
    let cleared files := mkService (m_monitoring svc) (m_isEncryptionReady svc)
                           (m_localEncryptionKey svc) db files in
    match fs with
    | RemoveAllRaised survives =>
        (cleared (filter (fun file => survives (fst file) = true) (m_dataDir svc)), [], None)
    | CreateDirectoriesRaised => (cleared ∅, [], None)
    | Cleared => (cleared ∅, [Emit allSelectionsRemoved], Some true)
    end.

(** [ClipboardService::setPinned], lines 24-30. *)
Definition setPinned (id : QString) (pinned : bool) (svc : ClipboardService)
    : ClipboardService * list Effect * bool :=
  let '(db, done) := ClipboardDatabase.setPinned id pinned (database svc) in
  if negb done then (svc, [], false)
  else (mkService (m_monitoring svc) (m_isEncryptionReady svc) (m_localEncryptionKey svc)
          db (m_dataDir svc),
        [Emit (selectionPinStatusChanged id pinned)], true).

(** [ClipboardService::setMonitoring], lines 142-145. *)
Definition setMonitoring (value : bool) (svc : ClipboardService)
    : ClipboardService * list Effect :=
  (mkService value (m_isEncryptionReady svc) (m_localEncryptionKey svc)
     (database svc) (m_dataDir svc),
   [Emit (monitoringChanged value)]).

(** The slot the constructor connects to the key watcher, lines 545-552;
    [res] is [Some key] when the keychain answered with a key. *)
Definition encryptionKeyResolved (res : option QByteArray) (svc : ClipboardService)
    : ClipboardService :=
  mkService (m_monitoring svc) true
    (match res with Some key => Some key | None => m_localEncryptionKey svc end)
    (database svc) (m_dataDir svc).

(** One call into the service, with what it draws from outside; [call] is
    the state it leaves, also when it ends in an exception. *)
Inductive Call :=
| CallSaveSelection (env : SaveEnv) (selection : ClipboardSelection)
| CallRemoveSelection (fsError : QString -> bool) (selectionId : QString)
| CallRemoveAllSelections (ok : bool) (fs : ClearOutcome)
| CallSetPinned (id : QString) (pinned : bool)
| CallSetMonitoring (value : bool)
| KeyResolved (res : option QByteArray).

Definition call `{Platform} (c : Call) (svc : ClipboardService) : ClipboardService :=
  match c with
  | CallSaveSelection env selection => fst (saveSelection env selection svc)
  | CallRemoveSelection fsError selectionId =>
      fst (fst (removeSelection fsError selectionId svc))
  | CallRemoveAllSelections ok fs => fst (fst (removeAllSelections ok fs svc))
  | CallSetPinned id pinned => fst (fst (setPinned id pinned svc))
  | CallSetMonitoring value => fst (setMonitoring value svc)
  | KeyResolved res => encryptionKeyResolved res svc
  end.

(** A sequence of calls, oldest first. *)
Definition calls `{Platform} (cs : list Call) (svc : ClipboardService) : ClipboardService :=
  fold_left (fun s c => call c s) cs svc.

(** ** A concrete platform

    Stand-ins for the library calls, to run the model on inputs: the digest
    is the identity (collision free), a URL has a scheme when the text holds a
    colon after at least one character, markup between angle brackets is
    dropped, payloads are ASCII (decoding them changes nothing), and
    encryption prefixes the key. *)

Fixpoint beforeColon (s : string) : option string :=
  match s with
  | EmptyString => None
  | String c s' =>
      if Ascii.eqb c ":" then Some EmptyString
      else match beforeColon s' with
           | Some p => Some (String c p)
           | None => None
           end
  end.

Fixpoint stripTags (inTag : bool) (s : string) : string :=
  match s with
  | EmptyString => EmptyString
  | String c s' =>
      if Ascii.eqb c "<" then stripTags true s'
      else if Ascii.eqb c ">" then stripTags false s'
      else if inTag then stripTags inTag s'
      else String c (stripTags inTag s')
  end.

Definition testUrl (d : QByteArray) : QUrl :=
  match beforeColon d with
  | Some p => mkUrl true p ""
  | None => mkUrl true "" ""
  end.

Definition TestPlatform : Platform := {|
  md5Hex := fun d => d;
  QUrl_fromEncoded := testUrl;
  toPlainText := stripTags false;
  simplified := fun d => d;
  QString_fromUtf8 := fun d => d;
  QImageReader_size := fun _ => None;
  AES256GCM_encrypt := fun d k => k +:+ d;
  CONCEALED_MIME_TYPE := "vicinae/concealed"
|}.

(** A service that monitors, with key resolution finished and no key, an
    empty database and an empty data directory. *)
Definition freshService : ClipboardService :=
  mkService true true None ClipboardDatabase.emptyDb ∅.

(** An environment in which every step goes through. *)
Definition fineEnv (selectionId offerId : QString) (time : nat) : SaveEnv :=
  mkEnv selectionId offerId time true true true true true.

(** ** The preferred-mime ranking in the specification's words *)

(** Mime types the loop of [getSelectionPreferredMimeType] skips. *)
Definition mozInternal (mime : QString) : bool := startsWith mime "text/_moz_html".

(** An image type other than the three the ranking names. *)
Definition genericImage (mime : QString) : bool :=
  startsWith mime "image/"
  && negb (String.eqb mime "image/jpeg")
  && negb (String.eqb mime "image/png")
  && negb (String.eqb mime "image/svg+xml").

(** The ranking as section 4.2 words it: Other < text/html < text/plain <
    generic image < image/jpeg < image/png < image/svg < (non-text/plain)
    text. *)
Definition claimedRank (mime : QString) : nat :=
  if String.eqb mime "text/html" then 2
  else if String.eqb mime "text/plain" then 3
  else if startsWith mime "text/" then 8
  else if String.eqb mime "image/jpeg" then 5
  else if String.eqb mime "image/png" then 6
  else if String.eqb mime "image/svg+xml" then 7
  else if startsWith mime "image/" then 4
  else 1.

(** The ranking as amended: Other < text/html < text/plain = any other text/*
    < generic image < image/jpeg < image/png < image/svg+xml = text/svg. *)
Definition amendedRank (mime : QString) : nat :=
  if String.eqb mime "text/html" then 2
  else if String.eqb mime "text/svg" then 7
  else if startsWith mime "text/" then 3
  else if String.eqb mime "image/jpeg" then 5
  else if String.eqb mime "image/png" then 6
  else if String.eqb mime "image/svg+xml" then 7
  else if startsWith mime "image/" then 4
  else 1.

(** ** The filter in the specification's words *)

(** Only the first offer of each mime type is kept; [seen] holds the mime
    types met so far. *)
Fixpoint firstOfEachMimeType (seen : list QString) (v : list ClipboardDataOffer)
    : list ClipboardDataOffer :=
  match v with
  | [] => []
  | offer :: v' =>
      if contains seen (mimeType offer) then firstOfEachMimeType seen v'
      else offer :: firstOfEachMimeType (mimeType offer :: seen) v'
  end.

(** Section 4.2: empty-byte offers are dropped; offers are deduplicated by
    mime type (only first of each type kept). *)
Definition claimedFilter (v : list ClipboardDataOffer) : list ClipboardDataOffer :=
  firstOfEachMimeType [] (erase_if (fun offer => isEmpty (data offer)) v).


(** ** What a full insert writes *)

(** The blob bytes for a payload under a key state, lines 438-442. *)
Definition blobBytes `{Platform} (key : option QByteArray) (offerData : QByteArray)
    : QByteArray :=
  match key with
  | Some k => AES256GCM_encrypt offerData k
  | None => offerData
  end.

(** The marker that goes with a key state, lines 412-414. *)
Definition markerOf (key : option QByteArray) : ClipboardEncryptionType.t :=
  match key with
  | Some _ => ClipboardEncryptionType.Local
  | None => ClipboardEncryptionType.None
  end.

(** Kinds whose content is indexed, line 406. *)
Definition indexedKind (kind : ClipboardOfferKind.t) : bool :=
  match kind with
  | ClipboardOfferKind.Text | ClipboardOfferKind.Link => true
  | _ => false
  end.

(** The selection row of a representative [(offerData, mime)]. *)
Definition selectionRowOf `{Platform} (env : SaveEnv) (source : option QString)
    (offerData : QByteArray) (mime : QString) : ClipboardDatabase.SelectionRow :=
  ClipboardDatabase.mkRow
    (mkSelectionPayload (uuid_selection env) 1 (md5Hex offerData) mime
       (getKind (mkOffer mime offerData)) source)
    (now env) false.

(** The offer row of a representative [(offerData, mime)]. *)
Definition offerRowOf `{Platform} (env : SaveEnv) (key : option QByteArray)
    (offerData : QByteArray) (mime : QString) : InsertClipboardOfferPayload :=
  mkOfferPayload (uuid_offer env) (uuid_selection env) mime
    (getOfferTextPreview (mkOffer mime offerData)) (md5Hex offerData) (markerOf key)
    (String.length offerData)
    (match getKind (mkOffer mime offerData) with
     | ClipboardOfferKind.Link =>
         if startsWith (scheme (QUrl_fromEncoded offerData)) "http"
         then Some (host (QUrl_fromEncoded offerData)) else None
     | _ => None
     end).

(** The entry the insertion signal carries for it. *)
Definition entryOf `{Platform} (env : SaveEnv) (offerData : QByteArray) (mime : QString)
    : ClipboardHistoryEntry :=
  mkEntry (uuid_selection env) 0 0 mime (md5Hex offerData)
    (getOfferTextPreview (mkOffer mime offerData)).

(** A capture gets as far as the transaction with the representative
    [(offerData, mime)]: the service monitors, key resolution has finished,
    and the filtered offers are neither clear nor concealed. *)
Definition reachesTransaction `{Platform} (selection : ClipboardSelection)
    (svc : ClipboardService) (offerData : QByteArray) (mime : QString) : Prop :=
  m_monitoring svc = true
  /\ m_isEncryptionReady svc = true
  /\ isClearSelection (filterOffers (offers selection)) = false
  /\ isConcealed (filterOffers (offers selection)) = false
  /\ chooseRepresentative (filterOffers (offers selection)) = Some (offerData, mime).

(** The database holds a selection with this content hash. *)
Definition hashStored (hash : QString) (db : ClipboardDatabase.t) : bool :=
  existsb (ClipboardDatabase.hasHash hash) (ClipboardDatabase.selectionTable db).

(** ** Concrete inputs *)

(** The selection of C5's witness: a Firefox copy of a table cell. *)
Definition firefoxSelection : ClipboardSelection :=
  mkSelection
    [mkOffer "text/_moz_htmlcontext" "<table>"; mkOffer "text/html" "<td>1</td>";
     mkOffer "text/plain" "1"; mkOffer "text/csv" "1"; mkOffer "application/json" "1"]
    (Some "firefox").

(** A password copied with a concealed marker, as copyText writes it. *)
Definition concealedCopy : ClipboardSelection :=
  mkSelection [mkOffer "text/plain" "hunter2"; mkOffer "vicinae/concealed" "1"] None.

(** The same copy with a marker that carries no bytes. *)
Definition concealedCopyEmptyMarker : ClipboardSelection :=
  mkSelection [mkOffer "text/plain" "hunter2"; mkOffer "vicinae/concealed" ""] None.

(** A plain-text copy. *)
Definition copyFoo : ClipboardSelection :=
  mkSelection [mkOffer "text/plain" "foo"] (Some "kitty").

(** An environment in which the offer row cannot be inserted. *)
Definition offerInsertFails : SaveEnv := mkEnv "s1" "o1" 5 true true false true true.

(** An environment in which the blob cannot be written (disk full). *)
Definition blobWriteFails : SaveEnv := mkEnv "s1" "o1" 5 true true true true false.

(** An environment in which the selection row cannot be inserted. *)
Definition selectionInsertFails : SaveEnv := mkEnv "s1" "o1" 5 false true true true true.

(** What follows the capture in C9's witness: the keychain answers with a
    key, another text is captured, and the first selection is pinned. *)
Definition laterCalls : list Call :=
  [KeyResolved (Some "0123456789abcdef0123456789abcdef");
   CallSaveSelection (fineEnv "s2" "o2" 9) (mkSelection [mkOffer "text/plain" "bar"] None);
   CallSetPinned "s1" true].

(** ** Copying to the system clipboard *)

Module Clipboard.

(** [Clipboard::CopyOptions], as far as the service reads it. *)
Record CopyOptions := mkOptions { concealed : bool }.

(** [Clipboard::Content], the variant [copyContent] visits. *)
Inductive Content :=
| NoData
| Html (html : QString) (text : option QString)
| File (path : QString)
| Text (text : QString)
| Selection (selection : ClipboardSelection).

End Clipboard.

(** A [QMimeData]: the bytes set for each format; [setData] replaces what
    the format held. The system clipboard holds one, empty when cleared. *)
Abbreviation QMimeData := (gmap QString QByteArray).

(** What [copyFile] asks of the file system and of [QMimeDatabase]:
    [readAll path] is [None] when the file cannot be opened. *)
Record FileEnv := mkFileEnv {
  mimeTypeForFile : QString -> QString;
  readAll : QString -> option QByteArray
}.

(** [ClipboardService::clear], lines 32-36. *)
Definition clearClipboard (clipboard : QMimeData) : QMimeData * bool := (∅, true).

(** [ClipboardService::copyQMimeData], lines 479-487; the result is the
    new content of the clipboard and the value returned. *)
Definition copyQMimeData `{Platform} (mimeData : QMimeData) (options : Clipboard.CopyOptions)
    (clipboard : QMimeData) : QMimeData * bool :=
  let mimeData :=
    if Clipboard.concealed options then <[CONCEALED_MIME_TYPE := "1"]> mimeData
    else mimeData in
  (mimeData, true).

(** [ClipboardService::copyText], lines 161-172. *)
Definition copyText `{Platform} (text : QString) (options : Clipboard.CopyOptions)
    (clipboard : QMimeData) : QMimeData * bool :=
  let mimeData : QMimeData := <["text/plain" := text]> ∅ in
  let mimeData :=
    if Clipboard.concealed options then <[CONCEALED_MIME_TYPE := "1"]> mimeData
    else mimeData in
  (mimeData, true).

(** [ClipboardService::copyHtml], lines 151-159. *)
Definition copyHtml `{Platform} (html : QString) (text : option QString)
    (options : Clipboard.CopyOptions) (clipboard : QMimeData) : QMimeData * bool :=
  let mimeData : QMimeData := <["text/html" := html]> ∅ in
  let mimeData :=
    match text with
    | Some t => <["text/plain" := t]> mimeData
    | None => mimeData
    end in
  copyQMimeData mimeData options clipboard.

(** [ClipboardService::copyFile], lines 127-138. *)
Definition copyFile `{Platform} (fs : FileEnv) (path : QString)
    (options : Clipboard.CopyOptions) (clipboard : QMimeData) : QMimeData * bool :=
  let mime := mimeTypeForFile fs path in
  match readAll fs path with
  | None => (clipboard, false)
  | Some bytes => copyQMimeData (<[mime := bytes]> ∅) options clipboard
  end.

(** The loop of [copySelection], lines 498-500. *)
Definition setOffers (v : list ClipboardDataOffer) (mimeData : QMimeData) : QMimeData :=
  fold_left (fun md offer => <[mimeType offer := data offer]> md) v mimeData.

(** [ClipboardService::copySelection], lines 489-503. *)
Definition copySelection `{Platform} (selection : ClipboardSelection)
    (options : Clipboard.CopyOptions) (clipboard : QMimeData) : QMimeData * bool :=
  match offers selection with
  | [] => (clipboard, false)
  | _ :: _ => copyQMimeData (setOffers (offers selection) ∅) options clipboard
  end.

(** [ClipboardService::copyContent], lines 80-103. *)
Definition copyContent `{Platform} (fs : FileEnv) (content : Clipboard.Content)
    (options : Clipboard.CopyOptions) (clipboard : QMimeData) : QMimeData * bool :=
  match content with
  | Clipboard.NoData => (clipboard, false)
  | Clipboard.Html html text => copyHtml html text options clipboard
  | Clipboard.File path => copyFile fs path options clipboard
  | Clipboard.Text text => copyText text options clipboard
  | Clipboard.Selection selection => copySelection selection options clipboard
  end.

(** [KeyboardShortcut::paste()] and [KeyboardShortcut::shiftPaste()]. *)
Inductive KeyboardShortcut := paste | shiftPaste.

(** A window, as far as [pasteContent] reads it. *)
Record Window := mkWindow { wmClass : QString }.

(** An application, as far as [pasteContent] reads it. *)
Record Application := mkApplication { isTerminalEmulator : bool }.

(** What [pasteContent] asks of the window manager and the application
    database: [m_wm.provider()->supportsInputForwarding()],
    [m_wm.getFocusedWindow()] and [m_appDb.find]. The code dereferences the
    focused window unchecked: one is taken to exist. *)
Record PasteEnv := mkPasteEnv {
  supportsInputForwarding : bool;
  getFocusedWindow : Window;
  appDb_find : QString -> option Application
}.

(** [ClipboardService::pasteContent], lines 105-125: the clipboard, the
    shortcuts sent through [sendShortcutSync], and the value returned. *)
Definition pasteContent `{Platform} (fs : FileEnv) (wm : PasteEnv)
    (content : Clipboard.Content) (options : Clipboard.CopyOptions) (clipboard : QMimeData)
    : QMimeData * list (Window * KeyboardShortcut) * bool :=
  let '(clipboard, copied) := copyContent fs content options clipboard in
  if negb copied then (clipboard, [], false) else
  if negb (supportsInputForwarding wm) then (clipboard, [], false) else
  let window := getFocusedWindow wm in
  let shortcut :=
    match appDb_find wm (wmClass window) with
    | Some app => if isTerminalEmulator app then shiftPaste else paste
    | None => paste
    end in
  (clipboard, [(window, shortcut)], true).

(** The offers a capture source can make of a clipboard content: one per
    format, with the bytes set for it. *)
Definition offersOf (mimeData : QMimeData) (selection : ClipboardSelection) : Prop :=
  forall format bytes, mimeData !! format = Some bytes ->
    In (mkOffer format bytes) (offers selection).

(** ** Reading a selection back *)

(** [Crypto::AES256GCM::decrypt(data, key)]. *)
Class Decryption := {
  AES256GCM_decrypt : QByteArray -> QByteArray -> QByteArray
}.

(** [ClipboardService::decryptOffer], lines 255-274. The two markers are all
    the enum has, so the fall-through of line 271 is not reached. *)
Definition decryptOffer `{Decryption} (key : option QByteArray) (bytes : QByteArray)
    (enc : ClipboardEncryptionType.t) : QByteArray :=
  match enc with
  | ClipboardEncryptionType.None => bytes
  | ClipboardEncryptionType.Local =>
      match key with
      | None => ""
      | Some k => AES256GCM_decrypt bytes k
      end
  end.

(** Modelled from the spec: ClipboardDatabase::findSelection is missing from
    the sources. Section 4.5: reads metadata, NotFound when the selection does
    not exist; section 3: a Selection owns its Offers. *)
Definition findSelection (id : QString) (db : ClipboardDatabase.t)
    : option (list InsertClipboardOfferPayload) :=
  if existsb (ClipboardDatabase.hasId id) (ClipboardDatabase.selectionTable db)
  then Some (List.filter (fun o => String.eqb (op_selectionId o) id)
               (ClipboardDatabase.offerTable db))
  else None.

(** The loop of [retrieveSelectionById], lines 464-474: an offer whose file
    cannot be opened is skipped. *)
Fixpoint populate `{Decryption} (key : option QByteArray) (files : gmap QString QByteArray)
    (rows : list InsertClipboardOfferPayload) : list ClipboardDataOffer :=
  match rows with
  | [] => []
  | offer :: rows' =>
      match files !! op_id offer with
      | None => populate key files rows'
      | Some bytes =>
          mkOffer (op_mimeType offer) (decryptOffer key bytes (op_encryption offer))
          :: populate key files rows'
      end
  end.

(** [ClipboardService::retrieveSelectionById], lines 457-477. *)
Definition retrieveSelectionById `{Decryption} (id : QString) (svc : ClipboardService)
    : option ClipboardSelection :=
  match findSelection id (database svc) with
  | None => None
  | Some rows =>
      Some (mkSelection (populate (m_localEncryptionKey svc) (m_dataDir svc) rows) None)
  end.

(** The service in a later session that got no key from the keychain: the
    same database and files, key resolution finished without a key. *)
Definition withoutKey (svc : ClipboardService) : ClipboardService :=
  mkService (m_monitoring svc) true None (database svc) (m_dataDir svc).

(** A stand-in for decryption that undoes [TestPlatform]'s encryption. *)
Definition TestDecryption : Decryption := {|
  AES256GCM_decrypt := fun d k => substring (String.length k) (String.length d - String.length k) d
|}.

(** ** Acquiring the encryption key *)

(** [KEYCHAIN_ENCRYPTION_KEY_NAME], line 22. *)
Definition KEYCHAIN_ENCRYPTION_KEY_NAME : QString := "clipboard-data-key".

(** What one run of [getLocalEncryptionKey] draws from outside: whether the
    read job ends in an error although the entry may exist (keychain locked,
    access denied), the result of [Crypto::AES256GCM::generateKey], and
    whether the write job ends in an error. *)
Record KeychainEnv := mkKeychainEnv {
  readFails : bool;
  generatedKey : QByteArray;
  writeFails : bool
}.

(** [ClipboardService::getLocalEncryptionKey], lines 38-78, on the entries
    the keychain holds for the application, by key name: the entries
    afterwards and what the future resolves to, [None] for the unexpected
    value of line 72. A read job with no error yields the entry under
    the name; a missing entry is a read error. *)
Definition getLocalEncryptionKey (env : KeychainEnv) (keychain : gmap QString QByteArray)
    : gmap QString QByteArray * option QByteArray :=
  let readJob :=
    if readFails env then None else keychain !! KEYCHAIN_ENCRYPTION_KEY_NAME in
  match readJob with
  | Some binaryData => (keychain, Some binaryData)
  | None =>
      let keyData := generatedKey env in
      if writeFails env then (keychain, None)
      else (<[KEYCHAIN_ENCRYPTION_KEY_NAME := keyData]> keychain, Some keyData)
  end.

(** The key part of the constructor, lines 541-552: the key is acquired and
    the watcher's slot stores it. *)
Definition acquireKey (env : KeychainEnv) (keychain : gmap QString QByteArray)
    (svc : ClipboardService) : gmap QString QByteArray * ClipboardService :=
  let '(keychain', res) := getLocalEncryptionKey env keychain in
  (keychain', encryptionKeyResolved res svc).

(** ** Invariants of the store *)

(** A selection as the pipeline writes it: one offer, stored as text/plain
    with kind Text or Link, or under an image type with kind Image. *)
Definition storableSelection (p : InsertSelectionPayload) : Prop :=
  sp_offerCount p = 1
  /\ ((sp_preferredMimeType p = "text/plain"
       /\ (sp_kind p = ClipboardOfferKind.Text \/ sp_kind p = ClipboardOfferKind.Link))
      \/ (startsWith (sp_preferredMimeType p) "image/" = true
          /\ sp_kind p = ClipboardOfferKind.Image)).

(** Every offer row belongs to a selection row. *)
Definition offersOwned (svc : ClipboardService) : Prop :=
  forall o, In o (ClipboardDatabase.offerTable (database svc)) ->
    exists r, In r (ClipboardDatabase.selectionTable (database svc))
              /\ sp_id (ClipboardDatabase.payload r) = op_selectionId o.

(** Every offer row has its blob file, and no two offer rows share an
    identifier. *)
Definition blobsPresent (svc : ClipboardService) : Prop :=
  List.NoDup (map op_id (ClipboardDatabase.offerTable (database svc)))
  /\ forall o, In o (ClipboardDatabase.offerTable (database svc)) ->
       exists bytes, m_dataDir svc !! op_id o = Some bytes.

(** Every capture of the sequence draws an offer identifier no offer row
    holds at that moment. *)
Fixpoint freshOfferIds `{Platform} (cs : list Call) (svc : ClipboardService) : Prop :=
  match cs with
  | [] => True
  | c :: cs' =>
      match c with
      | CallSaveSelection env _ =>
          ~ In (uuid_offer env) (map op_id (ClipboardDatabase.offerTable (database svc)))
      | _ => True
      end
      /\ freshOfferIds cs' (call c svc)
  end.

(** A session: a text is captured, the keychain answers with a key, a
    second text is captured, the first is captured again, pinned and removed,
    and monitoring is switched off. *)
Definition sessionCalls : list Call :=
  [CallSaveSelection (fineEnv "s1" "o1" 5) (mkSelection [mkOffer "text/plain" "foo"] None);
   KeyResolved (Some "0123456789abcdef0123456789abcdef");
   CallSaveSelection (fineEnv "s2" "o2" 9) (mkSelection [mkOffer "text/html" "<b>bar</b>"] None);
   CallSaveSelection (fineEnv "s3" "o3" 11) (mkSelection [mkOffer "text/plain" "foo"] None);
   CallSetPinned "s1" true;
   CallRemoveSelection (fun _ => false) "s1";
   CallSetMonitoring false].

(** ** The action panel state (navigation-controller.hpp) *)

(** An [AbstractAction], as far as [findPrimaryAction] reads it. *)
Record AbstractAction := mkAction { actionTitle : QString; isPrimary : bool }.

(** [ActionPanelSectionState]. *)
Record ActionPanelSectionState := mkSection {
  m_name : QString;
  m_actions : list AbstractAction
}.

(** [ActionPanelState]. *)
Record ActionPanelState := mkPanel {
  m_title : QString;
  m_sections : list ActionPanelSectionState
}.

(** The inner loop of [findPrimaryAction]. *)
Fixpoint findPrimaryIn (actions : list AbstractAction) : option AbstractAction :=
  match actions with
  | [] => None
  | action :: actions' => if isPrimary action then Some action else findPrimaryIn actions'
  end.

(** The outer loop of [findPrimaryAction]. *)
Fixpoint findPrimaryAmong (sections : list ActionPanelSectionState) : option AbstractAction :=
  match sections with
  | [] => None
  | section :: sections' =>
      match findPrimaryIn (m_actions section) with
      | Some action => Some action
      | None => findPrimaryAmong sections'
      end
  end.

(** [ActionPanelState::findPrimaryAction], [None] for [nullptr]. *)
Definition findPrimaryAction (panel : ActionPanelState) : option AbstractAction :=
  findPrimaryAmong (m_sections panel).

(** [ActionPanelState::createSection]: the panel afterwards; the handle
    returned is its last section. *)
Definition createSection (name : QString) (panel : ActionPanelState) : ActionPanelState :=
  mkPanel (m_title panel) (m_sections panel ++ [mkSection name []]).

(** A new process on the same database and data directory: no key in
    memory, key resolution not finished. *)
Definition restart (monitoring : bool) (svc : ClipboardService) : ClipboardService :=
  mkService monitoring false None (database svc) (m_dataDir svc).

(** * Properties *)

(** ** Strings and finds *)

Lemma startsWith_app (s p : string) :
  startsWith s p = true <-> exists r, s = p +:+ r.
Proof.
  revert s. induction p as [|c p IH]; intros s; simpl.
  - split; [intros _; exists s; reflexivity | reflexivity].
  - destruct s as [|d s]; simpl.
    + split; [discriminate | intros [r Hr]; discriminate].
    + rewrite andb_true_iff, IH. split.
      * intros [Hc [r ->]]. apply Ascii.eqb_eq in Hc. subst d. exists r. reflexivity.
      * intros [r Hr]. injection Hr as -> ->. split; [apply Ascii.eqb_refl | exists r; reflexivity].
Qed.

Lemma isEmpty_true (s : string) : isEmpty s = true <-> s = "".
Proof. destruct s; simpl; split; congruence. Qed.

Lemma isEmpty_false (s : string) : isEmpty s = false <-> s <> "".
Proof. destruct s; simpl; split; congruence. Qed.

Lemma contains_In (l : list QString) (s : QString) :
  contains l s = true <-> In s l.
Proof.
  unfold contains. rewrite existsb_exists. split.
  - intros [x [Hx He]]. apply String.eqb_eq in He. subst. exact Hx.
  - intros Hs. exists s. split; [exact Hs | apply String.eqb_refl].
Qed.

(** [std::ranges::find_if] returns the first element that satisfies the
    predicate. *)
Lemma find_first {A : Type} (p : A -> bool) (l1 l2 : list A) (x : A) :
  p x = true -> (forall y, In y l1 -> p y = false) ->
  find p (l1 ++ x :: l2) = Some x.
Proof.
  intros Hx. induction l1 as [|y l1 IH]; intros Hl1; simpl.
  - rewrite Hx. reflexivity.
  - rewrite (Hl1 y (or_introl eq_refl)). apply IH.
    intros z Hz. apply Hl1. right. exact Hz.
Qed.

Lemma find_none_iff {A : Type} (p : A -> bool) (l : list A) :
  find p l = None <-> forall y, In y l -> p y = false.
Proof.
  split; [apply find_none|].
  induction l as [|y l IH]; intros Hl; simpl; [reflexivity|].
  rewrite (Hl y (or_introl eq_refl)). apply IH.
  intros z Hz. apply Hl. right. exact Hz.
Qed.

(** ** getKind *)

Section Kind.
Context `{Platform}.

(** C6. getKind returns Image for a mime type that starts with image/; for one
    that starts with text/ it returns Text when the type is exactly text/html,
    and otherwise Link when the payload parses as a valid URL with a non-empty
    scheme and Text when it does not; it returns Text for exactly
    application/json, application/xml, application/javascript and
    application/sql; and Unknown for every other mime type. *)
Theorem getKind_classification (offer : ClipboardDataOffer) :
  (startsWith (mimeType offer) "image/" = true ->
     getKind offer = ClipboardOfferKind.Image)
  /\ (startsWith (mimeType offer) "text/" = true ->
        (mimeType offer = "text/html" -> getKind offer = ClipboardOfferKind.Text)
        /\ (mimeType offer <> "text/html" ->
              isValid (QUrl_fromEncoded (data offer)) = true ->
              scheme (QUrl_fromEncoded (data offer)) <> "" ->
              getKind offer = ClipboardOfferKind.Link)
        /\ (mimeType offer <> "text/html" ->
              ~ (isValid (QUrl_fromEncoded (data offer)) = true
                 /\ scheme (QUrl_fromEncoded (data offer)) <> "") ->
              getKind offer = ClipboardOfferKind.Text))
  /\ (In (mimeType offer)
         ["application/json"; "application/xml"; "application/javascript"; "application/sql"] ->
        getKind offer = ClipboardOfferKind.Text)
  /\ (startsWith (mimeType offer) "image/" = false ->
      startsWith (mimeType offer) "text/" = false ->
      ~ In (mimeType offer)
          ["application/json"; "application/xml"; "application/javascript"; "application/sql"] ->
      getKind offer = ClipboardOfferKind.Unknown).
Proof.
  destruct offer as [mime bytes]. unfold getKind. cbn [mimeType data].
  assert (Hti : startsWith mime "text/" = true -> startsWith mime "image/" = false).
  { intros Ht. apply startsWith_app in Ht as [r ->]. reflexivity. }
  split; [|split; [|split]].
  - intros ->. reflexivity.
  - intros Ht. rewrite (Hti Ht), Ht. split; [|split].
    + intros ->. reflexivity.
    + intros Hne Hv Hs. apply String.eqb_neq in Hne. rewrite Hne.
      apply isEmpty_false in Hs. rewrite Hv, Hs. reflexivity.
    + intros Hne Hno. apply String.eqb_neq in Hne. rewrite Hne.
      destruct (isValid (QUrl_fromEncoded bytes)) eqn:Hv; [|reflexivity].
      destruct (isEmpty (scheme (QUrl_fromEncoded bytes))) eqn:Hs; [reflexivity|].
      exfalso. apply Hno. split; [reflexivity | apply isEmpty_false; exact Hs].
  - intros Hin.
    destruct Hin as [<-|[<-|[<-|[<-|[]]]]]; reflexivity.
  - intros Hi Ht Hno. rewrite Hi, Ht.
    destruct (contains applicationTexts mime) eqn:Hc.
    + exfalso. apply Hno. apply contains_In in Hc. exact Hc.
    + rewrite andb_false_r. reflexivity.
Qed.

End Kind.

(** At text/uri-list with the payload https://vicinae.com, on the concrete
    platform: a Link. *)
Lemma getKind_classification_witness :
  @getKind TestPlatform (mkOffer "text/uri-list" "https://vicinae.com")
  = ClipboardOfferKind.Link.
Proof.
  refine (proj1 (proj2 (proj1 (proj2
    (@getKind_classification TestPlatform (mkOffer "text/uri-list" "https://vicinae.com")))
    _)) _ _ _).
  - reflexivity.
  - discriminate.
  - reflexivity.
  - discriminate.
Defined.

(** ** getSelectionPreferredMimeType *)

(** Where no generic image is involved the loop ranks as amended. *)
Lemma mimePriority_amended (mime : QString) :
  genericImage mime = false -> mimePriority mime = amendedRank mime.
Proof.
  unfold genericImage, mimePriority, amendedRank. intros Hg.
  destruct (String.eqb_spec mime "text/html") as [->|Hh]; [reflexivity|].
  destruct (String.eqb_spec mime "text/svg") as [->|Hs]; [reflexivity|].
  destruct (startsWith mime "text/") eqn:Ht.
  - destruct (String.eqb_spec mime "text/plain"); reflexivity.
  - destruct (String.eqb mime "image/jpeg"); [reflexivity|].
    destruct (String.eqb mime "image/png"); [reflexivity|].
    destruct (String.eqb mime "image/svg+xml"); [reflexivity|].
    cbn [negb] in Hg. rewrite !andb_true_r in Hg. rewrite Hg. reflexivity.
Qed.

Lemma mimePriority_pos (mime : QString) : 1 <= mimePriority mime.
Proof.
  unfold mimePriority, SelectionPriority.Text, SelectionPriority.HtmlText,
    SelectionPriority.ImageSvg, SelectionPriority.ImageJpeg,
    SelectionPriority.ImagePng, SelectionPriority.Other.
  repeat match goal with |- context [if ?b then _ else _] => destruct b end; lia.
Qed.

(** The loop from the state [(p, m)]: either no offer beats [p] and [m]
    stays, or the result is the first offer of maximal priority above [p]. *)
Lemma preferredLoop_first_max (l : list ClipboardDataOffer) :
  forall (p : nat) (m : QString),
    (preferredLoop l p m = m
     /\ forall x, In x l -> mozInternal (mimeType x) = false -> mimePriority (mimeType x) <= p)
    \/ (exists l1 o l2,
          l = l1 ++ o :: l2
          /\ mozInternal (mimeType o) = false
          /\ preferredLoop l p m = mimeType o
          /\ p < mimePriority (mimeType o)
          /\ (forall x, In x l1 -> mozInternal (mimeType x) = false ->
                mimePriority (mimeType x) < mimePriority (mimeType o))
          /\ (forall x, In x l2 -> mozInternal (mimeType x) = false ->
                mimePriority (mimeType x) <= mimePriority (mimeType o))).
Proof.
  induction l as [|a l IH]; intros p m; cbn [preferredLoop].
  - left. split; [reflexivity | intros x []].
  - change (startsWith (mimeType a) "text/_moz_html") with (mozInternal (mimeType a)).
    destruct (mozInternal (mimeType a)) eqn:Hmoz.
    + destruct (IH p m) as [[Hr Hle]|(l1 & o & l2 & -> & Ho & Hr & Hp & H1 & H2)].
      * left. split; [exact Hr|]. intros x [<-|Hx] Hx'; [congruence | auto].
      * right. exists (a :: l1), o, l2. repeat split; auto.
        intros x [<-|Hx] Hx'; [congruence | auto].
    + destruct (Nat.ltb_spec p (mimePriority (mimeType a))) as [Hlt|Hge].
      * destruct (IH (mimePriority (mimeType a)) (mimeType a))
          as [[Hr Hle]|(l1 & o & l2 & -> & Ho & Hr & Hp & H1 & H2)].
        -- right. exists [], a, l. repeat split; auto. intros x [].
        -- right. exists (a :: l1), o, l2. repeat split; auto; [lia|].
           intros x [<-|Hx] Hx'; [exact Hp | auto].
      * destruct (IH p m) as [[Hr Hle]|(l1 & o & l2 & -> & Ho & Hr & Hp & H1 & H2)].
        -- left. split; [exact Hr|]. intros x [<-|Hx] Hx'; [exact Hge | auto].
        -- right. exists (a :: l1), o, l2. repeat split; auto.
           intros x [<-|Hx] Hx'; [lia | auto].
Qed.

(** C5, as amended. For a selection none of whose offers is a generic image
    (an image type other than jpeg, png and svg+xml),
    getSelectionPreferredMimeType returns the mime type of the first offer
    that is maximal in the ranking Other < text/html < text/plain = any other
    text type < image/jpeg < image/png < image/svg+xml = text/svg, offers whose
    mime type begins with text/_moz_html being ignored entirely (the empty
    string when every offer is ignored); and offers text/html, image/jpeg
    resolve to image/jpeg. *)
Theorem preferredMimeType_ranking :
  (forall selection : ClipboardSelection,
     (forall x, In x (offers selection) -> genericImage (mimeType x) = false) ->
     ((forall x, In x (offers selection) -> mozInternal (mimeType x) = true)
      /\ getSelectionPreferredMimeType selection = "")
     \/ (exists l1 o l2,
           offers selection = l1 ++ o :: l2
           /\ mozInternal (mimeType o) = false
           /\ getSelectionPreferredMimeType selection = mimeType o
           /\ (forall x, In x l1 -> mozInternal (mimeType x) = false ->
                 amendedRank (mimeType x) < amendedRank (mimeType o))
           /\ (forall x, In x l2 -> mozInternal (mimeType x) = false ->
                 amendedRank (mimeType x) <= amendedRank (mimeType o))))
  /\ (forall (html jpeg : QByteArray) (source : option QString),
        getSelectionPreferredMimeType
          (mkSelection [mkOffer "text/html" html; mkOffer "image/jpeg" jpeg] source)
        = "image/jpeg").
Proof.
  split; [|reflexivity].
  intros [l source] Hgen. cbn [offers] in *. unfold getSelectionPreferredMimeType.
  cbn [offers].
  destruct (preferredLoop_first_max l SelectionPriority.Invalid "")
    as [[Hr Hle]|(l1 & o & l2 & Hl & Ho & Hr & Hp & H1 & H2)].
  - left. split; [|exact Hr].
    intros x Hx. destruct (mozInternal (mimeType x)) eqn:Hm; [reflexivity|].
    specialize (Hle x Hx Hm). pose proof (mimePriority_pos (mimeType x)).
    unfold SelectionPriority.Invalid in Hle. lia.
  - right. exists l1, o, l2.
    assert (Hin : forall x, In x l1 \/ x = o \/ In x l2 -> In x l).
    { intros x [Hx|[->|Hx]]; rewrite Hl; apply in_or_app; simpl; auto. }
    rewrite <- (mimePriority_amended (mimeType o)) by (apply Hgen, Hin; auto).
    repeat split; auto.
    + intros x Hx Hm. rewrite <- (mimePriority_amended (mimeType x)) by (apply Hgen, Hin; auto).
      auto.
    + intros x Hx Hm. rewrite <- (mimePriority_amended (mimeType x)) by (apply Hgen, Hin; auto).
      auto.
Qed.

Lemma preferredMimeType_ranking_witness :
  (forall x, In x (offers firefoxSelection) -> genericImage (mimeType x) = false)
  /\ (((forall x, In x (offers firefoxSelection) -> mozInternal (mimeType x) = true)
       /\ getSelectionPreferredMimeType firefoxSelection = "")
      \/ (exists l1 o l2,
            offers firefoxSelection = l1 ++ o :: l2
            /\ mozInternal (mimeType o) = false
            /\ getSelectionPreferredMimeType firefoxSelection = mimeType o
            /\ (forall x, In x l1 -> mozInternal (mimeType x) = false ->
                  amendedRank (mimeType x) < amendedRank (mimeType o))
            /\ (forall x, In x l2 -> mozInternal (mimeType x) = false ->
                  amendedRank (mimeType x) <= amendedRank (mimeType o)))).
Proof.
  assert (Hgen : forall x, In x (offers firefoxSelection) -> genericImage (mimeType x) = false).
  { intros x Hx. simpl in Hx.
    destruct Hx as [<-|[<-|[<-|[<-|[<-|[]]]]]]; reflexivity. }
  split; [exact Hgen|].
  exact (proj1 preferredMimeType_ranking firefoxSelection Hgen).
Defined.

(** C5 as stated fails: the claim ranks a text type other than text/plain
    above every image, so for the offers image/png, text/csv it demands
    text/csv, and the code answers image/png. *)
Lemma preferredMimeType_claimed_ranking_fails :
  getSelectionPreferredMimeType
    (mkSelection [mkOffer "image/png" "PNG"; mkOffer "text/csv" "a,b"] None)
  = "image/png"
  /\ claimedRank "image/png" < claimedRank "text/csv".
Proof. split; [reflexivity | vm_compute; lia]. Qed.

(** ** The paths through saveSelection *)

Section Paths.
Context `{Platform}.

(** The early returns of lines 343, 348, 355 and 380. *)
Lemma saveSelection_dropped (env : SaveEnv) (selection : ClipboardSelection)
    (svc : ClipboardService) :
  m_monitoring svc = false
  \/ m_isEncryptionReady svc = false
  \/ isClearSelection (filterOffers (offers selection)) = true
  \/ isConcealed (filterOffers (offers selection)) = true
  \/ chooseRepresentative (filterOffers (offers selection)) = None ->
  saveSelection env selection svc = (svc, []).
Proof.
  unfold saveSelection. intros Hdrop.
  destruct (m_monitoring svc); [|reflexivity].
  destruct (m_isEncryptionReady svc); [|reflexivity]. cbn [negb orb].
  destruct (isClearSelection _); [reflexivity|].
  destruct (isConcealed _); [reflexivity|].
  destruct (chooseRepresentative _) as [[d m]|]; [|reflexivity].
  destruct Hdrop as [Hd|[Hd|[Hd|[Hd|Hd]]]]; discriminate Hd.
Qed.

(** The dedup path: the hash is stored already. *)
Lemma saveSelection_bubbleUp (env : SaveEnv) (selection : ClipboardSelection)
    (svc : ClipboardService) (offerData : QByteArray) (mime : QString) :
  reachesTransaction selection svc offerData mime ->
  hashStored (md5Hex offerData) (database svc) = true ->
  saveSelection env selection svc
  = (mkService (m_monitoring svc) (m_isEncryptionReady svc) (m_localEncryptionKey svc)
       (fst (ClipboardDatabase.tryBubbleUpSelection (now env) (md5Hex offerData) (database svc)))
       (m_dataDir svc),
     [Commit; Emit (itemInserted defaultEntry)]).
Proof.
  intros (Hm & Hr & Hc & Hk & Hrep) Hh. unfold saveSelection.
  rewrite Hm, Hr, Hc, Hk, Hrep. cbn [negb orb].
  unfold ClipboardDatabase.transaction, saveHandler, ClipboardDatabase.tryBubbleUpSelection.
  unfold hashStored in Hh. rewrite Hh. reflexivity.
Qed.

(** The insert path with every step going through. *)
Lemma saveSelection_insert (env : SaveEnv) (selection : ClipboardSelection)
    (svc : ClipboardService) (offerData : QByteArray) (mime : QString) :
  reachesTransaction selection svc offerData mime ->
  hashStored (md5Hex offerData) (database svc) = false ->
  insertSelection_ok env = true -> indexSelectionContent_ok env = true ->
  insertOffer_ok env = true -> open_ok env = true -> write_ok env = true ->
  saveSelection env selection svc
  = (mkService (m_monitoring svc) (m_isEncryptionReady svc) (m_localEncryptionKey svc)
       (ClipboardDatabase.mk
          (ClipboardDatabase.selectionTable (database svc)
             ++ [selectionRowOf env (sourceApp selection) offerData mime])
          (ClipboardDatabase.offerTable (database svc)
             ++ [offerRowOf env (m_localEncryptionKey svc) offerData mime])
          (ClipboardDatabase.contentIndex (database svc)
             ++ (if indexedKind (getKind (mkOffer mime offerData))
                 then [(uuid_selection env, offerData)] else [])))
       (<[uuid_offer env := blobBytes (m_localEncryptionKey svc) offerData]> (m_dataDir svc)),
     [Commit; Emit (itemInserted (entryOf env offerData mime))]).
Proof.
  intros (Hm & Hr & Hc & Hk & Hrep) Hh H1 H2 H3 H4 H5. unfold saveSelection.
  rewrite Hm, Hr, Hc, Hk, Hrep. cbn [negb orb].
  unfold ClipboardDatabase.transaction, saveHandler, ClipboardDatabase.tryBubbleUpSelection.
  unfold hashStored in Hh. rewrite Hh.
  unfold ClipboardDatabase.insertSelection, ClipboardDatabase.indexSelectionContent,
    ClipboardDatabase.insertOffer.
  rewrite H1, H2, H3, H4, H5. cbn [negb fst snd].
  unfold selectionRowOf, offerRowOf, entryOf, blobBytes, markerOf, indexedKind.
  destruct (getKind (mkOffer mime offerData)); cbn;
    destruct (m_localEncryptionKey svc); cbn;
    rewrite insert_insert_eq, ?app_nil_r; reflexivity.
Qed.

End Paths.

(** ** The representative offer *)

Section Representative.
Context `{Platform}.

Lemma find_plain_none (v : list ClipboardDataOffer) :
  (forall x, In x v -> mimeType x <> "text/plain") ->
  find (fun offer => String.eqb (mimeType offer) "text/plain") v = None.
Proof.
  intros Hv. apply find_none_iff. intros y Hy. apply String.eqb_neq, Hv, Hy.
Qed.

Lemma find_html_none (v : list ClipboardDataOffer) :
  (forall x, In x v -> mimeType x <> "text/html") ->
  find (fun offer => String.eqb (mimeType offer) "text/html") v = None.
Proof.
  intros Hv. apply find_none_iff. intros y Hy. apply String.eqb_neq, Hv, Hy.
Qed.

(** C3. From the filtered offers [v] the representative is the first
    text/plain offer; failing that the first image/* offer, under its own mime
    type; failing that the first text/html offer, converted to plain text and
    stored as text/plain; with none of the three the selection is skipped and
    nothing is persisted. What is chosen is what the insert path stores. For
    the offers text/plain foo, image/png bytes the representative is
    text/plain foo, of kind Text (foo holding no URL scheme). *)
Theorem representative_priority (v : list ClipboardDataOffer) :
  (forall l1 o l2, v = l1 ++ o :: l2 -> mimeType o = "text/plain" ->
     (forall x, In x l1 -> mimeType x <> "text/plain") ->
     chooseRepresentative v = Some (data o, "text/plain"))
  /\ (forall l1 o l2, v = l1 ++ o :: l2 ->
        (forall x, In x v -> mimeType x <> "text/plain") ->
        startsWith (mimeType o) "image/" = true ->
        (forall x, In x l1 -> startsWith (mimeType x) "image/" = false) ->
        chooseRepresentative v = Some (data o, mimeType o))
  /\ (forall l1 o l2, v = l1 ++ o :: l2 ->
        (forall x, In x v -> mimeType x <> "text/plain") ->
        (forall x, In x v -> startsWith (mimeType x) "image/" = false) ->
        mimeType o = "text/html" ->
        (forall x, In x l1 -> mimeType x <> "text/html") ->
        chooseRepresentative v = Some (toPlainText (data o), "text/plain"))
  /\ ((forall x, In x v ->
         mimeType x <> "text/plain" /\ startsWith (mimeType x) "image/" = false
         /\ mimeType x <> "text/html") ->
      chooseRepresentative v = None)
  /\ (forall env selection svc,
        filterOffers (offers selection) = v -> chooseRepresentative v = None ->
        saveSelection env selection svc = (svc, []))
  /\ (forall env selection svc offerData mime,
        filterOffers (offers selection) = v ->
        reachesTransaction selection svc offerData mime ->
        hashStored (md5Hex offerData) (database svc) = false ->
        insertSelection_ok env = true -> indexSelectionContent_ok env = true ->
        insertOffer_ok env = true -> open_ok env = true -> write_ok env = true ->
        let svc' := fst (saveSelection env selection svc) in
        chooseRepresentative v = Some (offerData, mime)
        /\ In (selectionRowOf env (sourceApp selection) offerData mime)
             (ClipboardDatabase.selectionTable (database svc'))
        /\ In (offerRowOf env (m_localEncryptionKey svc) offerData mime)
             (ClipboardDatabase.offerTable (database svc'))
        /\ m_dataDir svc' !! uuid_offer env
           = Some (blobBytes (m_localEncryptionKey svc) offerData))
  /\ (forall bytes,
        v = [mkOffer "text/plain" "foo"; mkOffer "image/png" bytes] ->
        scheme (QUrl_fromEncoded "foo") = "" ->
        chooseRepresentative v = Some ("foo", "text/plain")
        /\ getKind (mkOffer "text/plain" "foo") = ClipboardOfferKind.Text).
Proof.
  split; [|split; [|split; [|split; [|split; [|split]]]]].
  - intros l1 o l2 -> Ho Hl1. unfold chooseRepresentative.
    rewrite (find_first _ l1 l2 o); [reflexivity | |].
    + rewrite Ho. reflexivity.
    + intros y Hy. apply String.eqb_neq, Hl1, Hy.
  - intros l1 o l2 Hv Hplain Ho Hl1. unfold chooseRepresentative.
    rewrite (find_plain_none v Hplain). rewrite Hv.
    rewrite (find_first _ l1 l2 o Ho Hl1). reflexivity.
  - intros l1 o l2 Hv Hplain Himg Ho Hl1. unfold chooseRepresentative.
    rewrite (find_plain_none v Hplain).
    rewrite (proj2 (find_none_iff (fun offer => startsWith (mimeType offer) "image/") v) Himg).
    rewrite Hv, (find_first _ l1 l2 o); [reflexivity | |].
    + rewrite Ho. reflexivity.
    + intros y Hy. apply String.eqb_neq, Hl1, Hy.
  - intros Hnone. unfold chooseRepresentative.
    rewrite (find_plain_none v), (find_html_none v);
      [| intros x Hx; apply (Hnone x Hx) | intros x Hx; apply (Hnone x Hx)].
    rewrite (proj2 (find_none_iff (fun offer => startsWith (mimeType offer) "image/") v));
      [reflexivity | intros x Hx; apply (Hnone x Hx)].
  - intros env selection svc <- Hrep. apply saveSelection_dropped. tauto.
  - intros env selection svc offerData mime Hv Hreach Hh H1 H2 H3 H4 H5 svc'.
    subst svc'. rewrite (saveSelection_insert env selection svc offerData mime) by assumption.
    cbn [fst database m_dataDir ClipboardDatabase.selectionTable ClipboardDatabase.offerTable].
    destruct Hreach as (_ & _ & _ & _ & Hrep). rewrite <- Hv.
    split; [exact Hrep|].
    split; [apply in_or_app; right; left; reflexivity|].
    split; [apply in_or_app; right; left; reflexivity|].
    apply lookup_insert_eq.
  - intros bytes -> Hfoo. split; [reflexivity|].
    unfold getKind. cbn [mimeType data]. rewrite Hfoo.
    cbn. rewrite andb_false_r. reflexivity.
Qed.

End Representative.

(** On the concrete platform, for the example of C3 with a PNG signature as
    the image bytes. *)
Lemma representative_priority_witness :
  @chooseRepresentative TestPlatform [mkOffer "text/plain" "foo"; mkOffer "image/png" "PNG"]
  = Some ("foo", "text/plain")
  /\ @getKind TestPlatform (mkOffer "text/plain" "foo") = ClipboardOfferKind.Text.
Proof.
  refine (proj2 (proj2 (proj2 (proj2 (proj2 (proj2
    (@representative_priority TestPlatform
       [mkOffer "text/plain" "foo"; mkOffer "image/png" "PNG"]))))))
    "PNG" _ _); reflexivity.
Defined.

(** ** Filtering *)

(** [std::ranges::unique] as called here reorders the vector and loses
    nothing. *)
Lemma uniqueLoop_Permutation (rest : list ClipboardDataOffer) :
  forall front dest gap,
    Permutation (uniqueLoop front dest gap rest) (front ++ dest :: gap ++ rest).
Proof.
  induction rest as [|x rest IH]; intros front dest gap; cbn [uniqueLoop].
  - rewrite app_nil_r. reflexivity.
  - destruct (sameMimeType dest x).
    + rewrite IH, <- app_assoc. reflexivity.
    + destruct gap as [|g gap].
      * rewrite IH, <- app_assoc. reflexivity.
      * rewrite IH, <- !app_assoc. cbn [app].
        apply Permutation_app_head, perm_skip.
        rewrite <- (Permutation_middle gap rest g), <- (Permutation_middle gap rest x).
        apply perm_swap.
Qed.

Lemma ranges_unique_Permutation (v : list ClipboardDataOffer) :
  Permutation (ranges_unique v) v.
Proof.
  destruct v as [|x rest]; [reflexivity|]. apply (uniqueLoop_Permutation rest [] x []).
Qed.

Lemma filterOffers_In (v : list ClipboardDataOffer) (offer : ClipboardDataOffer) :
  In offer (filterOffers v) <-> In offer v /\ data offer <> "".
Proof.
  unfold filterOffers, erase_if. split.
  - intros Hin. apply (Permutation_in _ (ranges_unique_Permutation _)) in Hin.
    apply filter_In in Hin as [Hin Hne]. split; [exact Hin|].
    apply isEmpty_false, negb_true_iff, Hne.
  - intros [Hin Hne].
    apply (Permutation_in _ (Permutation_sym (ranges_unique_Permutation _))).
    apply filter_In. split; [exact Hin|]. apply negb_true_iff, isEmpty_false, Hne.
Qed.

Lemma find_app_split {A : Type} (p : A -> bool) (l1 l2 : list A) :
  find p (l1 ++ l2) = match find p l1 with Some x => Some x | None => find p l2 end.
Proof.
  induction l1 as [|a l1 IH]; cbn [app find]; [reflexivity|].
  destruct (p a); [reflexivity | exact IH].
Qed.

(** A search by mime type does not see the slots of the gap: each holds an
    offer whose mime type a kept offer has too. *)
Lemma find_skips_gap (q : QString -> bool) (kept gap rest : list ClipboardDataOffer) :
  (forall g, In g gap -> exists k, In k kept /\ sameMimeType k g = true) ->
  find (fun offer => q (mimeType offer)) (kept ++ gap ++ rest)
  = find (fun offer => q (mimeType offer)) (kept ++ rest).
Proof.
  intros Hgap. rewrite !find_app_split.
  destruct (find (fun offer => q (mimeType offer)) kept) eqn:Hkept; [reflexivity|].
  assert (Hnone : find (fun offer => q (mimeType offer)) gap = None).
  { apply find_none_iff. intros g Hg. destruct (Hgap g Hg) as (k & Hk & Hsame).
    apply String.eqb_eq in Hsame. rewrite <- Hsame.
    exact (find_none _ _ Hkept k Hk). }
  rewrite Hnone. reflexivity.
Qed.

Lemma uniqueLoop_find (q : QString -> bool) (rest : list ClipboardDataOffer) :
  forall front dest gap,
    (forall g, In g gap -> exists k, In k (front ++ [dest]) /\ sameMimeType k g = true) ->
    find (fun offer => q (mimeType offer)) (uniqueLoop front dest gap rest)
    = find (fun offer => q (mimeType offer)) (front ++ dest :: rest).
Proof.
  induction rest as [|x rest IH]; intros front dest gap Hgap; cbn [uniqueLoop].
  - pose proof (find_skips_gap q (front ++ [dest]) gap [] Hgap) as Hskip.
    rewrite app_nil_r, <- !app_assoc in Hskip. exact Hskip.
  - destruct (sameMimeType dest x) eqn:Hsame.
    + rewrite IH.
      * rewrite !find_app_split. cbn [find].
        apply String.eqb_eq in Hsame. rewrite <- Hsame.
        destruct (q (mimeType dest)); reflexivity.
      * intros g Hg. apply in_app_or in Hg as [Hg|[<-|[]]]; [auto|].
        exists dest. split; [apply in_or_app; right; left; reflexivity | exact Hsame].
    + assert (Hkept : forall g, In g gap ->
                exists k, In k ((front ++ [dest]) ++ [x]) /\ sameMimeType k g = true).
      { intros g Hg. destruct (Hgap g Hg) as (k & Hk & Hkg).
        exists k. split; [apply in_or_app; left; exact Hk | exact Hkg]. }
      destruct gap as [|g gap].
      * rewrite IH by (intros g []). rewrite <- app_assoc. reflexivity.
      * rewrite IH; [rewrite <- app_assoc; reflexivity|].
        intros g' Hg'. apply Hkept.
        apply in_app_or in Hg' as [Hg'|[<-|[]]]; [right; exact Hg' | left; reflexivity].
Qed.

(** The code's filter and the specification's give every search by mime type
    the same first match. *)
Lemma firstOfEachMimeType_find (q : QString -> bool) (v : list ClipboardDataOffer) :
  forall seen, (forall m, In m seen -> q m = false) ->
    find (fun offer => q (mimeType offer)) (firstOfEachMimeType seen v)
    = find (fun offer => q (mimeType offer)) v.
Proof.
  induction v as [|o v IH]; intros seen Hseen; cbn [firstOfEachMimeType find]; [reflexivity|].
  destruct (contains seen (mimeType o)) eqn:Hc.
  - apply contains_In in Hc. rewrite (Hseen _ Hc). apply IH, Hseen.
  - cbn [find]. destruct (q (mimeType o)) eqn:Hq; [reflexivity|].
    apply IH. intros m [<-|Hm]; [exact Hq | apply Hseen, Hm].
Qed.

Lemma filterOffers_find (q : QString -> bool) (v : list ClipboardDataOffer) :
  find (fun offer => q (mimeType offer)) (filterOffers v)
  = find (fun offer => q (mimeType offer)) (claimedFilter v).
Proof.
  unfold filterOffers, claimedFilter.
  rewrite (firstOfEachMimeType_find q _ []) by (intros m []).
  unfold ranges_unique.
  destruct (erase_if _ v) as [|x rest]; [reflexivity|].
  apply (uniqueLoop_find q rest [] x []). intros g [].
Qed.

(** The repeated offers the code keeps do not change the representative: it
    is the one chosen from the offers deduplicated by mime type. *)
Lemma filterOffers_same_representative `{Platform} (v : list ClipboardDataOffer) :
  chooseRepresentative (filterOffers v) = chooseRepresentative (claimedFilter v).
Proof.
  unfold chooseRepresentative.
  rewrite (filterOffers_find (fun m => String.eqb m "text/plain") v).
  rewrite (filterOffers_find (fun m => startsWith m "image/") v).
  rewrite (filterOffers_find (fun m => String.eqb m "text/html") v).
  reflexivity.
Qed.

(** ** Concealed selections *)

Section Concealed.
Context `{Platform}.

(** A raw selection in which some offer with non-empty bytes has the
    concealed mime type is discarded as a whole: saveSelection leaves the
    service, its database and its data directory as they were and emits
    nothing. *)
Theorem concealed_selection_discarded (env : SaveEnv) (selection : ClipboardSelection)
    (svc : ClipboardService) :
  (exists offer, In offer (offers selection)
                 /\ mimeType offer = CONCEALED_MIME_TYPE /\ data offer <> "") ->
  saveSelection env selection svc = (svc, []).
Proof.
  intros (offer & Hin & Hmime & Hdata). apply saveSelection_dropped.
  right; right; right; left. unfold isConcealed. apply existsb_exists.
  exists offer. split.
  - apply filterOffers_In. split; assumption.
  - rewrite Hmime. apply String.eqb_refl.
Qed.

End Concealed.

Lemma concealed_selection_discarded_witness :
  @saveSelection TestPlatform (fineEnv "s1" "o1" 5) concealedCopy freshService
  = (freshService, []).
Proof.
  apply (@concealed_selection_discarded TestPlatform (fineEnv "s1" "o1" 5)
           concealedCopy freshService).
  exists (mkOffer "vicinae/concealed" "1"). split; [|split].
  - right. left. reflexivity.
  - reflexivity.
  - discriminate.
Defined.

(** C8, at the failing input. The concealed offer carries no bytes: line 345
    erases it before lines 350-351 look for its mime type, so the selection
    the code means to ignore (line 354) goes on to the transaction, and the
    password is stored in an offer row and a blob file of a store that was
    empty. *)
Lemma concealed_empty_marker_is_stored :
  In (mkOffer (@CONCEALED_MIME_TYPE TestPlatform) "") (offers concealedCopyEmptyMarker)
  /\ ClipboardDatabase.offerTable
       (database (fst (@saveSelection TestPlatform (fineEnv "s1" "o1" 5)
                         concealedCopyEmptyMarker freshService)))
     = [mkOfferPayload "o1" "s1" "text/plain" "hunter2" "hunter2"
          ClipboardEncryptionType.None 7 None]
  /\ m_dataDir (fst (@saveSelection TestPlatform (fineEnv "s1" "o1" 5)
                       concealedCopyEmptyMarker freshService)) !! "o1"
     = Some "hunter2"
  /\ database freshService = ClipboardDatabase.emptyDb.
Proof.
  split; [right; left; reflexivity|].
  split; [vm_compute; reflexivity|].
  split; [vm_compute; reflexivity | reflexivity].
Qed.

(** ** Deduplication *)

Lemma bubble_other_rows (time : nat) (hash : QString)
    (table : list ClipboardDatabase.SelectionRow) :
  existsb (ClipboardDatabase.hasHash hash) table = false ->
  map (fun r => if ClipboardDatabase.hasHash hash r then ClipboardDatabase.touch time r else r)
    table = table.
Proof.
  induction table as [|r table IH]; cbn [existsb map]; [reflexivity|].
  intros Hno. apply orb_false_iff in Hno as [Hr Ht].
  rewrite Hr, (IH Ht). reflexivity.
Qed.

Lemma filter_hash_none (hash : QString) (table : list ClipboardDatabase.SelectionRow) :
  existsb (ClipboardDatabase.hasHash hash) table = false ->
  List.filter (ClipboardDatabase.hasHash hash) table = [].
Proof.
  induction table as [|r table IH]; cbn [existsb List.filter]; [reflexivity|].
  intros Hno. apply orb_false_iff in Hno as [Hr Ht].
  rewrite Hr. apply IH, Ht.
Qed.

Section Dedup.
Context `{Platform}.

Lemma selectionRowOf_hash (env : SaveEnv) (source : option QString)
    (offerData : QByteArray) (mime : QString) :
  ClipboardDatabase.hasHash (md5Hex offerData) (selectionRowOf env source offerData mime) = true.
Proof. unfold ClipboardDatabase.hasHash. cbn. apply String.eqb_refl. Qed.

(** C2. Two captures with the same representative payload, the first one
    persisted in full while the hash was not stored yet: afterwards exactly
    one stored Selection has that content hash. The second call leaves the
    selection rows as the first call left them but for the recency stamp of
    that one row, which it sets to its own time, and it leaves the offer rows,
    the search index and the blob files as they were. *)
Theorem same_payload_twice_one_selection (env1 env2 : SaveEnv)
    (first second : ClipboardSelection) (svc : ClipboardService)
    (offerData : QByteArray) (mime1 mime2 : QString) :
  reachesTransaction first svc offerData mime1 ->
  reachesTransaction second svc offerData mime2 ->
  hashStored (md5Hex offerData) (database svc) = false ->
  insertSelection_ok env1 = true -> indexSelectionContent_ok env1 = true ->
  insertOffer_ok env1 = true -> open_ok env1 = true -> write_ok env1 = true ->
  let svc1 := fst (saveSelection env1 first svc) in
  let svc2 := fst (saveSelection env2 second svc1) in
  length (List.filter (ClipboardDatabase.hasHash (md5Hex offerData))
            (ClipboardDatabase.selectionTable (database svc2))) = 1
  /\ ClipboardDatabase.selectionTable (database svc1)
     = ClipboardDatabase.selectionTable (database svc)
         ++ [selectionRowOf env1 (sourceApp first) offerData mime1]
  /\ ClipboardDatabase.selectionTable (database svc2)
     = ClipboardDatabase.selectionTable (database svc)
         ++ [ClipboardDatabase.touch (now env2)
               (selectionRowOf env1 (sourceApp first) offerData mime1)]
  /\ ClipboardDatabase.offerTable (database svc2)
     = ClipboardDatabase.offerTable (database svc1)
  /\ ClipboardDatabase.contentIndex (database svc2)
     = ClipboardDatabase.contentIndex (database svc1)
  /\ m_dataDir svc2 = m_dataDir svc1.
Proof.
  intros Hfirst Hsecond Hnew H1 H2 H3 H4 H5 svc1 svc2. subst svc2 svc1.
  rewrite (saveSelection_insert env1 first svc offerData mime1) by assumption.
  cbn [fst].
  match goal with |- context [saveSelection env2 second ?s] => set (svc1 := s) end.
  assert (Hreach : reachesTransaction second svc1 offerData mime2).
  { destruct Hsecond as (Hm & Hr & Hrest). split; [exact Hm | split; [exact Hr | exact Hrest]]. }
  assert (Hstored : hashStored (md5Hex offerData) (database svc1) = true).
  { unfold hashStored. subst svc1. cbn [database ClipboardDatabase.selectionTable].
    rewrite existsb_app. cbn [existsb]. rewrite selectionRowOf_hash.
    rewrite orb_true_r. reflexivity. }
  rewrite (saveSelection_bubbleUp env2 second svc1 offerData mime2 Hreach Hstored).
  unfold ClipboardDatabase.tryBubbleUpSelection. unfold hashStored in Hstored.
  rewrite Hstored. subst svc1.
  cbn [fst database m_dataDir ClipboardDatabase.selectionTable
         ClipboardDatabase.offerTable ClipboardDatabase.contentIndex].
  rewrite map_app. cbn [map]. rewrite selectionRowOf_hash.
  rewrite (bubble_other_rows _ _ _ Hnew).
  repeat split.
  rewrite List.filter_app, (filter_hash_none _ _ Hnew). cbn [List.filter app].
  replace (ClipboardDatabase.hasHash (md5Hex offerData)
             (ClipboardDatabase.touch (now env2)
                (selectionRowOf env1 (sourceApp first) offerData mime1)))
    with true by (symmetry; unfold ClipboardDatabase.hasHash; cbn; apply String.eqb_refl).
  reflexivity.
Qed.

End Dedup.

Lemma same_payload_twice_one_selection_witness :
  let svc1 := fst (@saveSelection TestPlatform (fineEnv "s1" "o1" 5) copyFoo freshService) in
  let svc2 := fst (@saveSelection TestPlatform (fineEnv "s2" "o2" 9) copyFoo svc1) in
  length (List.filter (ClipboardDatabase.hasHash "foo")
            (ClipboardDatabase.selectionTable (database svc2))) = 1
  /\ ClipboardDatabase.offerTable (database svc2)
     = ClipboardDatabase.offerTable (database svc1)
  /\ m_dataDir svc2 = m_dataDir svc1.
Proof.
  assert (Hreach : @reachesTransaction TestPlatform copyFoo freshService "foo" "text/plain").
  { repeat split. }
  pose proof (@same_payload_twice_one_selection TestPlatform
                (fineEnv "s1" "o1" 5) (fineEnv "s2" "o2" 9) copyFoo copyFoo freshService
                "foo" "text/plain" "text/plain" Hreach Hreach
                eq_refl eq_refl eq_refl eq_refl eq_refl eq_refl) as Hthm.
  cbv zeta in Hthm. cbv zeta.
  destruct Hthm as (Hone & _ & _ & Hoffers & _ & Hfiles).
  split; [exact Hone | split; [exact Hoffers | exact Hfiles]].
Defined.

(** ** Where the code departs from the specification *)

(** The vector itself is not the deduplicated list. Lines 345-346 leave every
    non-empty offer in it: [std::ranges::unique] only moves the later offers
    of a run of equal neighbours behind the others, and nothing erases them.
    Offers of one mime type that are not neighbours stay where they are
    (text/html, image/png, text/html, where the specification's filter keeps
    two offers), and neighbours are kept too (the second text/html offer of
    the last input moves to the back). What saveSelection reads off the vector
    does not tell the two apart, see below. *)
Lemma filterOffers_keeps_repeated_mime_types :
  (forall v, Permutation (filterOffers v) (erase_if (fun offer => isEmpty (data offer)) v))
  /\ filterOffers [mkOffer "text/html" "<b>a</b>"; mkOffer "image/png" "PNG";
                   mkOffer "text/html" "<i>b</i>"]
     = [mkOffer "text/html" "<b>a</b>"; mkOffer "image/png" "PNG";
        mkOffer "text/html" "<i>b</i>"]
  /\ claimedFilter [mkOffer "text/html" "<b>a</b>"; mkOffer "image/png" "PNG";
                    mkOffer "text/html" "<i>b</i>"]
     = [mkOffer "text/html" "<b>a</b>"; mkOffer "image/png" "PNG"]
  /\ filterOffers [mkOffer "text/html" "<b>a</b>"; mkOffer "text/html" "<i>b</i>";
                   mkOffer "text/plain" "a"]
     = [mkOffer "text/html" "<b>a</b>"; mkOffer "text/plain" "a";
        mkOffer "text/html" "<i>b</i>"].
Proof.
  split; [|split; [|split]; reflexivity].
  intros v. apply ranges_unique_Permutation.
Qed.

(** A selection whose offers are all empty is never persisted: saveSelection
    leaves the service as it was and emits nothing. *)
Lemma empty_selection_dropped `{Platform} (env : SaveEnv) (selection : ClipboardSelection)
    (svc : ClipboardService) :
  (forall offer, In offer (offers selection) -> data offer = "") ->
  saveSelection env selection svc = (svc, []).
Proof.
  intros Hempty. apply saveSelection_dropped. right; right; left.
  assert (Hnil : erase_if (fun offer => isEmpty (data offer)) (offers selection) = []).
  { unfold erase_if. induction (offers selection) as [|o l IH]; [reflexivity|].
    cbn [List.filter]. rewrite (proj2 (isEmpty_true (data o))) by (apply Hempty; left; reflexivity).
    cbn [negb]. apply IH. intros x Hx. apply Hempty. right. exact Hx. }
  unfold filterOffers. rewrite Hnil. reflexivity.
Qed.

Lemma empty_selection_dropped_witness :
  @saveSelection TestPlatform (fineEnv "s1" "o1" 5)
    (mkSelection [mkOffer "text/plain" ""; mkOffer "text/html" ""] None) freshService
  = (freshService, []).
Proof.
  apply (@empty_selection_dropped TestPlatform).
  intros offer [<-|[<-|[]]]; reflexivity.
Defined.

(** A capture that arrives while monitoring is off, or before key resolution
    has finished, is dropped: nothing is stored and nothing is emitted. *)
Lemma capture_dropped_at_the_gate `{Platform} (env : SaveEnv)
    (selection : ClipboardSelection) (svc : ClipboardService) :
  m_monitoring svc = false \/ m_isEncryptionReady svc = false ->
  saveSelection env selection svc = (svc, []).
Proof.
  intros Hgate. apply saveSelection_dropped. tauto.
Qed.

Lemma capture_dropped_at_the_gate_witness :
  @saveSelection TestPlatform (fineEnv "s1" "o1" 5) copyFoo
    (mkService true false None ClipboardDatabase.emptyDb ∅)
  = (mkService true false None ClipboardDatabase.emptyDb ∅, []).
Proof.
  apply (@capture_dropped_at_the_gate TestPlatform). right. reflexivity.
Defined.

(** C1, at the failing inputs. When insertOffer fails, line 431 drops its
    result: the transaction commits with the selection row, the index entry
    and the blob file, and no offer row. When the write of the blob fails,
    lines 439-441 drop its result: the transaction commits both rows over an
    empty blob file. *)
Theorem saveSelection_commits_partial_insert :
  (let svc' := fst (@saveSelection TestPlatform offerInsertFails copyFoo freshService) in
   map (fun r => sp_id (ClipboardDatabase.payload r))
     (ClipboardDatabase.selectionTable (database svc')) = ["s1"]
   /\ ClipboardDatabase.contentIndex (database svc') = [("s1", "foo")]
   /\ ClipboardDatabase.offerTable (database svc') = []
   /\ m_dataDir svc' !! "o1" = Some "foo"
   /\ snd (@saveSelection TestPlatform offerInsertFails copyFoo freshService)
      = [Commit; Emit (itemInserted (mkEntry "s1" 0 0 "text/plain" "foo" "foo"))])
  /\ (let svc' := fst (@saveSelection TestPlatform blobWriteFails copyFoo freshService) in
      map (fun r => sp_id (ClipboardDatabase.payload r))
        (ClipboardDatabase.selectionTable (database svc')) = ["s1"]
      /\ map (fun o => (op_id o, op_size o)) (ClipboardDatabase.offerTable (database svc'))
         = [("o1", 3)]
      /\ m_dataDir svc' !! "o1" = Some ""
      /\ snd (@saveSelection TestPlatform blobWriteFails copyFoo freshService)
         = [Commit; Emit (itemInserted (mkEntry "s1" 0 0 "text/plain" "foo" "foo"))]).
Proof.
  cbv zeta. repeat split; vm_compute; reflexivity.
Qed.

(** C4, at the failing inputs. Line 454 emits itemInserted whatever the
    transaction did: a second capture of the same payload takes the bubble-up
    path, adds no selection, and still emits itemInserted, with a
    default-constructed entry; so does a capture whose transaction is rolled
    back. *)
Theorem itemInserted_emitted_without_insert :
  (let svc1 := fst (@saveSelection TestPlatform (fineEnv "s1" "o1" 5) copyFoo freshService) in
   let second := @saveSelection TestPlatform (fineEnv "s2" "o2" 9) copyFoo svc1 in
   map ClipboardDatabase.payload (ClipboardDatabase.selectionTable (database (fst second)))
   = map ClipboardDatabase.payload (ClipboardDatabase.selectionTable (database svc1))
   /\ snd second = [Commit; Emit (itemInserted defaultEntry)])
  /\ (let failed := @saveSelection TestPlatform selectionInsertFails copyFoo freshService in
      fst failed = freshService
      /\ snd failed = [Rollback; Emit (itemInserted defaultEntry)]).
Proof.
  cbv zeta. repeat split; vm_compute; reflexivity.
Qed.

(** ** removeSelection *)

Lemma removeFiles_lookup (fsError : QString -> bool) (removed : list QString) :
  forall (files : gmap QString QByteArray) (name : QString),
    (fst (removeFiles fsError removed files) !! name = None
     \/ fst (removeFiles fsError removed files) !! name = files !! name)
    /\ (~ In name removed ->
        fst (removeFiles fsError removed files) !! name = files !! name)
    /\ (snd (removeFiles fsError removed files) = false -> In name removed ->
        fst (removeFiles fsError removed files) !! name = None).
Proof.
  induction removed as [|a removed IH]; intros files name; cbn [removeFiles].
  - split; [right; reflexivity|]. split; [reflexivity | intros _ []].
  - destruct (fsError a).
    + split; [right; reflexivity|]. split; [reflexivity | discriminate].
    + destruct (IH (delete a files) name) as (IHany & IHout & IHin).
      assert (Hdel : (delete a files : gmap QString QByteArray) !! name = None
                     \/ (delete a files : gmap QString QByteArray) !! name = files !! name).
      { destruct (string_dec a name) as [->|Hne];
          [left; apply lookup_delete_eq | right; apply lookup_delete_ne; exact Hne]. }
      split; [|split].
      * destruct IHany as [Hnone|Hsame]; [left; exact Hnone|].
        rewrite Hsame. exact Hdel.
      * intros Hno. rewrite IHout by (intros Hin; apply Hno; right; exact Hin).
        apply lookup_delete_ne. intros ->. apply Hno. left. reflexivity.
      * intros Hdone [->|Hin]; [|auto].
        destruct IHany as [Hnone|Hsame]; [exact Hnone|].
        rewrite Hsame. apply lookup_delete_eq.
Qed.






(** ** Encryption markers *)

Section Encryption.
Context `{Platform}.

(** What a call of saveSelection can do to the file and the offer rows of an
    identifier other than the one it draws. *)
Lemma saveSelection_frame (env : SaveEnv) (selection : ClipboardSelection)
    (svc : ClipboardService) (offerId : QString) :
  uuid_offer env <> offerId ->
  m_dataDir (fst (saveSelection env selection svc)) !! offerId = m_dataDir svc !! offerId
  /\ (forall o, In o (ClipboardDatabase.offerTable
                        (database (fst (saveSelection env selection svc)))) ->
                op_id o = offerId ->
                In o (ClipboardDatabase.offerTable (database svc))).
Proof.
  intros Hne. unfold saveSelection.
  destruct (negb (m_monitoring svc) || negb (m_isEncryptionReady svc)); [split; auto|].
  destruct (isClearSelection _); [split; auto|].
  destruct (isConcealed _); [split; auto|].
  destruct (chooseRepresentative _) as [[offerData mime]|]; [|split; auto].
  unfold ClipboardDatabase.transaction, saveHandler, ClipboardDatabase.tryBubbleUpSelection.
  destruct (existsb _ _); [split; auto|].
  unfold ClipboardDatabase.insertSelection, ClipboardDatabase.indexSelectionContent,
    ClipboardDatabase.insertOffer.
  destruct (insertSelection_ok env), (indexSelectionContent_ok env), (insertOffer_ok env),
    (open_ok env), (write_ok env), (getKind (mkOffer mime offerData)),
    (m_localEncryptionKey svc);
    cbn [negb fst snd database m_dataDir ClipboardDatabase.offerTable];
    (split;
     [ rewrite ?lookup_insert_ne by exact Hne; reflexivity
     | intros o Hin Hid;
       first [ exact Hin
             | apply in_app_or in Hin as [Hin|[<-|[]]];
               [exact Hin | exfalso; apply Hne; exact Hid] ] ]).
Qed.

(** What [fs::remove_all] leaves of a file when it raises. *)
Lemma survivors_lookup (survives : QString -> bool) (files : gmap QString QByteArray)
    (name : QString) :
  filter (fun file => survives (fst file) = true) files !! name = None
  \/ filter (fun file => survives (fst file) = true) files !! name = files !! name.
Proof.
  destruct (filter (fun file => survives (fst file) = true) files !! name) as [bytes|] eqn:Hf;
    [right | left; reflexivity].
  apply map_lookup_filter_Some in Hf as [Hf _]. symmetry. exact Hf.
Qed.

(** The state removeAllSelections leaves, whether it returns or raises. *)
Lemma removeAllSelections_state (ok : bool) (fs : ClearOutcome) (svc : ClipboardService) :
  fst (fst (removeAllSelections ok fs svc))
  = if ok
    then mkService (m_monitoring svc) (m_isEncryptionReady svc) (m_localEncryptionKey svc)
           ClipboardDatabase.emptyDb
           (match fs with
            | RemoveAllRaised survives =>
                filter (fun file => survives (fst file) = true) (m_dataDir svc)
            | _ => ∅
            end)
    else svc.
Proof.
  unfold removeAllSelections, ClipboardDatabase.removeAll.
  destruct ok; [|reflexivity]. destruct fs; reflexivity.
Qed.

(** The state removeSelection leaves, whether it returns or raises. *)
Lemma removeSelection_state (fsError : QString -> bool) (selectionId : QString)
    (svc : ClipboardService) :
  fst (fst (removeSelection fsError selectionId svc))
  = mkService (m_monitoring svc) (m_isEncryptionReady svc) (m_localEncryptionKey svc)
      (fst (ClipboardDatabase.removeSelection selectionId (database svc)))
      (fst (removeFiles fsError
              (snd (ClipboardDatabase.removeSelection selectionId (database svc)))
              (m_dataDir svc))).
Proof.
  unfold removeSelection.
  destruct (ClipboardDatabase.removeSelection selectionId (database svc)) as [db removed].
  cbn [fst snd]. destruct (removeFiles fsError removed (m_dataDir svc)) as [files raised].
  destruct raised; reflexivity.
Qed.

Lemma removeSelection_frame (fsError : QString -> bool) (selectionId : QString)
    (svc : ClipboardService) (offerId : QString) :
  (m_dataDir (fst (fst (removeSelection fsError selectionId svc))) !! offerId = None
   \/ m_dataDir (fst (fst (removeSelection fsError selectionId svc))) !! offerId
      = m_dataDir svc !! offerId)
  /\ (forall o, In o (ClipboardDatabase.offerTable
                        (database (fst (fst (removeSelection fsError selectionId svc))))) ->
                In o (ClipboardDatabase.offerTable (database svc))).
Proof.
  rewrite removeSelection_state. cbn [database m_dataDir]. split.
  - apply removeFiles_lookup.
  - unfold ClipboardDatabase.removeSelection.
    destruct (existsb _ _); cbn [fst ClipboardDatabase.offerTable]; [|auto].
    intros o Hin. apply filter_In in Hin. tauto.
Qed.

(** One call leaves the blob of an identifier it does not draw deleted or
    byte for byte as it was, and adds no offer row under that identifier. *)
Lemma call_frame (c : Call) (svc : ClipboardService) (offerId : QString) :
  (forall env selection, c = CallSaveSelection env selection -> uuid_offer env <> offerId) ->
  (m_dataDir (call c svc) !! offerId = None
   \/ m_dataDir (call c svc) !! offerId = m_dataDir svc !! offerId)
  /\ (forall o, In o (ClipboardDatabase.offerTable (database (call c svc))) ->
                op_id o = offerId ->
                In o (ClipboardDatabase.offerTable (database svc))).
Proof.
  intros Hfresh.
  destruct c as [env selection|fsError selectionId|ok fs|id pinned|value|res];
    cbn [call].
  - destruct (saveSelection_frame env selection svc offerId (Hfresh _ _ eq_refl)) as [Hf Ho].
    split; [right; exact Hf | exact Ho].
  - destruct (removeSelection_frame fsError selectionId svc offerId) as [Hf Ho].
    split; [exact Hf | intros o Hin _; apply Ho, Hin].
  - rewrite removeAllSelections_state. destruct ok; [|split; [right; reflexivity | auto]].
    cbn [database m_dataDir ClipboardDatabase.offerTable ClipboardDatabase.emptyDb].
    split; [|intros o []].
    destruct fs as [|survives|]; [left; apply lookup_empty | | left; apply lookup_empty].
    apply survivors_lookup.
  - unfold setPinned, ClipboardDatabase.setPinned. destruct (existsb _ _);
      cbn [negb fst snd database m_dataDir ClipboardDatabase.offerTable];
      (split; [right; reflexivity | auto]).
  - cbn. split; [right; reflexivity | auto].
  - cbn. split; [right; reflexivity | auto].
Qed.

Lemma calls_frame (cs : list Call) :
  forall (svc : ClipboardService) (offerId : QString),
    (forall env selection, In (CallSaveSelection env selection) cs ->
       uuid_offer env <> offerId) ->
    (m_dataDir (calls cs svc) !! offerId = None
     \/ m_dataDir (calls cs svc) !! offerId = m_dataDir svc !! offerId)
    /\ (forall o, In o (ClipboardDatabase.offerTable (database (calls cs svc))) ->
                  op_id o = offerId ->
                  In o (ClipboardDatabase.offerTable (database svc))).
Proof.
  unfold calls. induction cs as [|c cs IH]; intros svc offerId Hfresh; cbn [fold_left].
  - split; [right; reflexivity | auto].
  - destruct (call_frame c svc offerId) as [Hf Ho].
    { intros env selection ->. apply (Hfresh env selection). left. reflexivity. }
    destruct (IH (call c svc) offerId) as [Hf' Ho'].
    { intros env selection Hin. apply (Hfresh env selection). right. exact Hin. }
    split.
    + destruct Hf' as [Hf'|Hf']; [left; exact Hf'|].
      rewrite Hf'. exact Hf.
    + intros o Hin Hid. apply Ho; [|exact Hid]. apply Ho'; assumption.
Qed.

End Encryption.

Section Markers.
Context `{Platform}.

(** C9. A capture that is persisted in full (monitoring on, key resolution
    finished, every step going through, a fresh offer identifier) gets the
    marker of the key state of that moment: without a key the marker is None
    and the blob holds the raw bytes, so the capture is accepted and stored
    unencrypted; with a key the marker is Local and the blob holds the
    encrypted bytes. Whatever calls follow (the key becoming available,
    further captures under other identifiers, pinning, removals), the blob is
    either deleted or byte for byte what was written, and an offer row under
    that identifier is the row that was written, marker included. *)
Theorem encryption_marker_reflects_key_at_persist_time
    (env : SaveEnv) (selection : ClipboardSelection) (svc : ClipboardService)
    (offerData : QByteArray) (mime : QString) (later : list Call) :
  reachesTransaction selection svc offerData mime ->
  hashStored (md5Hex offerData) (database svc) = false ->
  insertSelection_ok env = true -> indexSelectionContent_ok env = true ->
  insertOffer_ok env = true -> open_ok env = true -> write_ok env = true ->
  (forall o, In o (ClipboardDatabase.offerTable (database svc)) ->
             op_id o <> uuid_offer env) ->
  (forall env' selection', In (CallSaveSelection env' selection') later ->
                           uuid_offer env' <> uuid_offer env) ->
  let persisted := fst (saveSelection env selection svc) in
  let row := offerRowOf env (m_localEncryptionKey svc) offerData mime in
  In row (ClipboardDatabase.offerTable (database persisted))
  /\ op_id row = uuid_offer env
  /\ (m_localEncryptionKey svc = None ->
        op_encryption row = ClipboardEncryptionType.None
        /\ m_dataDir persisted !! uuid_offer env = Some offerData)
  /\ (forall key, m_localEncryptionKey svc = Some key ->
        op_encryption row = ClipboardEncryptionType.Local
        /\ m_dataDir persisted !! uuid_offer env = Some (AES256GCM_encrypt offerData key))
  /\ (m_dataDir (calls later persisted) !! uuid_offer env = None
      \/ m_dataDir (calls later persisted) !! uuid_offer env
         = m_dataDir persisted !! uuid_offer env)
  /\ (forall o, In o (ClipboardDatabase.offerTable (database (calls later persisted))) ->
                op_id o = uuid_offer env -> o = row).
Proof.
  intros Hreach Hnew H1 H2 H3 H4 H5 Hfresh Hlater persisted row.
  destruct (calls_frame later persisted (uuid_offer env) Hlater) as [Hfile Hrows].
  assert (Hp : persisted
               = fst (saveSelection env selection svc)) by reflexivity.
  rewrite (saveSelection_insert env selection svc offerData mime) in Hp by assumption.
  cbn [fst] in Hp.
  assert (Htable : ClipboardDatabase.offerTable (database persisted)
                   = ClipboardDatabase.offerTable (database svc) ++ [row]).
  { rewrite Hp. reflexivity. }
  assert (Hblob : m_dataDir persisted !! uuid_offer env
                  = Some (blobBytes (m_localEncryptionKey svc) offerData)).
  { rewrite Hp. cbn [m_dataDir]. apply lookup_insert_eq. }
  split; [rewrite Htable; apply in_or_app; right; left; reflexivity|].
  split; [reflexivity|].
  split; [intros Hkey; split; [subst row; rewrite Hkey; reflexivity|]|].
  { rewrite Hblob, Hkey. reflexivity. }
  split; [intros key Hkey; split; [subst row; rewrite Hkey; reflexivity|]|].
  { rewrite Hblob, Hkey. reflexivity. }
  split; [exact Hfile|].
  intros o Hin Hid. specialize (Hrows o Hin Hid). rewrite Htable in Hrows.
  apply in_app_or in Hrows as [Hold|[<-|[]]]; [|reflexivity].
  exfalso. exact (Hfresh o Hold Hid).
Qed.

End Markers.

Lemma encryption_marker_reflects_key_at_persist_time_witness :
  let persisted := fst (@saveSelection TestPlatform (fineEnv "s1" "o1" 5) copyFoo freshService) in
  let row := @offerRowOf TestPlatform (fineEnv "s1" "o1" 5) None "foo" "text/plain" in
  In row (ClipboardDatabase.offerTable (database persisted))
  /\ op_encryption row = ClipboardEncryptionType.None
  /\ m_dataDir persisted !! "o1" = Some "foo"
  /\ (m_dataDir (@calls TestPlatform laterCalls persisted) !! "o1" = None
      \/ m_dataDir (@calls TestPlatform laterCalls persisted) !! "o1"
         = m_dataDir persisted !! "o1")
  /\ (forall o, In o (ClipboardDatabase.offerTable
                        (database (@calls TestPlatform laterCalls persisted))) ->
                op_id o = "o1" -> o = row).
Proof.
  assert (Hreach : @reachesTransaction TestPlatform copyFoo freshService "foo" "text/plain").
  { repeat split. }
  assert (Hlater : forall env' selection',
             In (CallSaveSelection env' selection') laterCalls -> uuid_offer env' <> "o1").
  { intros env' selection' [Hc|[Hc|[Hc|[]]]]; try discriminate Hc.
    injection Hc as <- _. discriminate. }
  pose proof (@encryption_marker_reflects_key_at_persist_time TestPlatform
                (fineEnv "s1" "o1" 5) copyFoo freshService "foo" "text/plain" laterCalls
                Hreach eq_refl eq_refl eq_refl eq_refl eq_refl eq_refl
                (fun o (Hin : In o []) => match Hin with end) Hlater) as Hthm.
  cbv zeta in Hthm. cbv zeta.
  destruct Hthm as (Hin & _ & Hnone & _ & Hfile & Hrows).
  destruct (Hnone eq_refl) as [Hmarker Hblob].
  split; [exact Hin|]. split; [exact Hmarker|]. split; [exact Hblob|].
  split; [exact Hfile | exact Hrows].
Defined.

(** ** Copying and pasting *)

Lemma setOffers_lookup_other (v : list ClipboardDataOffer) :
  forall (mimeData : QMimeData) (format : QString),
    (forall x, In x v -> mimeType x <> format) ->
    setOffers v mimeData !! format = mimeData !! format.
Proof.
  unfold setOffers. induction v as [|o v IH]; intros mimeData format Hv; cbn [fold_left].
  - reflexivity.
  - rewrite IH by (intros x Hx; apply Hv; right; exact Hx).
    apply lookup_insert_ne. apply Hv. left. reflexivity.
Qed.

Lemma setOffers_lookup_last (l1 l2 : list ClipboardDataOffer) (o : ClipboardDataOffer)
    (mimeData : QMimeData) :
  (forall x, In x l2 -> mimeType x <> mimeType o) ->
  setOffers (l1 ++ o :: l2) mimeData !! mimeType o = Some (data o).
Proof.
  intros Hl2. unfold setOffers. rewrite fold_left_app. cbn [fold_left].
  fold (setOffers l1 mimeData).
  change (setOffers l2 (<[mimeType o := data o]> (setOffers l1 mimeData)) !! mimeType o
          = Some (data o)).
  rewrite (setOffers_lookup_other l2 _ _ Hl2). apply lookup_insert_eq.
Qed.

Lemma setOffers_lookup_Some (v : list ClipboardDataOffer) :
  forall (mimeData : QMimeData) (format : QString) (bytes : QByteArray),
    setOffers v mimeData !! format = Some bytes ->
    mimeData !! format = Some bytes \/ In (mkOffer format bytes) v.
Proof.
  unfold setOffers. induction v as [|o v IH]; intros mimeData format bytes Hl; cbn [fold_left] in Hl.
  - left. exact Hl.
  - destruct (IH _ _ _ Hl) as [Hin|Hin]; [|right; right; exact Hin].
    apply lookup_insert_Some in Hin as [[<- <-]|[_ Hin]].
    + right. left. destruct o. reflexivity.
    + left. exact Hin.
Qed.

Section Copy.
Context `{Platform}.

(** copyContent returns false in exactly three cases: there is no data, the
    file cannot be opened, or the selection has no offers; and then it leaves
    the clipboard as it was. *)
Theorem copyContent_fails_only_without_data (fs : FileEnv) (content : Clipboard.Content)
    (options : Clipboard.CopyOptions) (clipboard : QMimeData) :
  (snd (copyContent fs content options clipboard) = false <->
     content = Clipboard.NoData
     \/ (exists path, content = Clipboard.File path /\ readAll fs path = None)
     \/ (exists selection, content = Clipboard.Selection selection /\ offers selection = []))
  /\ (snd (copyContent fs content options clipboard) = false ->
      fst (copyContent fs content options clipboard) = clipboard).
Proof.
  destruct content as [|html text|path|text|selection]; cbn [copyContent].
  - split; [|reflexivity]. split; [left; reflexivity | reflexivity].
  - unfold copyHtml, copyQMimeData. cbn [fst snd].
    split; [|discriminate]. split; [discriminate|].
    intros [Hc|[(pa & Hc & _)|(se & Hc & _)]]; discriminate Hc.
  - unfold copyFile, copyQMimeData. destruct (readAll fs path) eqn:Hread; cbn [fst snd].
    + split; [|discriminate]. split; [discriminate|].
      intros [Hc|[(pa & Hc & Hp)|(se & Hc & _)]]; try discriminate Hc.
      injection Hc as <-. congruence.
    + split; [|reflexivity]. split; [|reflexivity].
      intros _. right. left. exists path. split; [reflexivity | exact Hread].
  - unfold copyText. cbn [fst snd].
    split; [|discriminate]. split; [discriminate|].
    intros [Hc|[(pa & Hc & _)|(se & Hc & _)]]; discriminate Hc.
  - unfold copySelection, copyQMimeData. destruct (offers selection) eqn:Hoffers; cbn [fst snd].
    + split; [|reflexivity]. split; [|reflexivity].
      intros _. right. right. exists selection. split; [reflexivity | exact Hoffers].
    + split; [|discriminate]. split; [discriminate|].
      intros [Hc|[(pa & Hc & _)|(se & Hc & Hs)]]; try discriminate Hc.
      injection Hc as <-. congruence.
Qed.

(** Whatever copyContent puts on the clipboard with the concealed option
    carries the concealed format with the byte 1. *)
Lemma copyContent_concealed_marker (fs : FileEnv) (content : Clipboard.Content)
    (options : Clipboard.CopyOptions) (clipboard : QMimeData) :
  Clipboard.concealed options = true ->
  snd (copyContent fs content options clipboard) = true ->
  fst (copyContent fs content options clipboard) !! CONCEALED_MIME_TYPE = Some "1".
Proof.
  intros Hc. destruct content as [|html text|path|text|selection]; cbn [copyContent].
  - discriminate.
  - intros _. unfold copyHtml, copyQMimeData. rewrite Hc. apply lookup_insert_eq.
  - unfold copyFile, copyQMimeData. destruct (readAll fs path); [|discriminate].
    intros _. rewrite Hc. apply lookup_insert_eq.
  - intros _. unfold copyText. rewrite Hc. apply lookup_insert_eq.
  - unfold copySelection, copyQMimeData. destruct (offers selection); [discriminate|].
    intros _. rewrite Hc. apply lookup_insert_eq.
Qed.

(** What the service itself copies with the concealed option never enters
    the history: a capture that offers the formats copyContent put on the
    clipboard (among others, in any order) is dropped by saveSelection, which
    stores nothing and emits nothing. *)
Theorem concealed_copy_never_recorded (fs : FileEnv) (content : Clipboard.Content)
    (options : Clipboard.CopyOptions) (clipboard : QMimeData)
    (env : SaveEnv) (selection : ClipboardSelection) (svc : ClipboardService) :
  Clipboard.concealed options = true ->
  snd (copyContent fs content options clipboard) = true ->
  offersOf (fst (copyContent fs content options clipboard)) selection ->
  saveSelection env selection svc = (svc, []).
Proof.
  intros Hc Hok Hoffers. apply saveSelection_dropped.
  right; right; right; left. unfold isConcealed. apply existsb_exists.
  exists (mkOffer CONCEALED_MIME_TYPE "1"). split.
  - apply filterOffers_In. split; [|discriminate].
    apply Hoffers, copyContent_concealed_marker; assumption.
  - apply String.eqb_refl.
Qed.

(** copySelection keeps, for each mime type, the bytes of the last offer of
    that type (saveSelection looks at the first): the clipboard holds the
    bytes of an offer no later offer shares its mime type with, unless the
    concealed marker replaces them; and every format on the clipboard is
    the mime type of an offer or the concealed marker. *)
Theorem copySelection_last_offer_wins (selection : ClipboardSelection)
    (options : Clipboard.CopyOptions) (clipboard : QMimeData)
    (l1 l2 : list ClipboardDataOffer) (o : ClipboardDataOffer) :
  offers selection = l1 ++ o :: l2 ->
  (forall x, In x l2 -> mimeType x <> mimeType o) ->
  (Clipboard.concealed options = true -> mimeType o <> CONCEALED_MIME_TYPE) ->
  snd (copySelection selection options clipboard) = true
  /\ fst (copySelection selection options clipboard) !! mimeType o = Some (data o)
  /\ (forall format bytes,
        fst (copySelection selection options clipboard) !! format = Some bytes ->
        In (mkOffer format bytes) (offers selection)
        \/ (Clipboard.concealed options = true
            /\ format = CONCEALED_MIME_TYPE /\ bytes = "1")).
Proof.
  intros Hsel Hl2 Hmarker. unfold copySelection, copyQMimeData.
  destruct (offers selection) as [|a v] eqn:Hoffers.
  { destruct l1; discriminate Hsel. }
  cbn [fst snd]. split; [reflexivity|]. split.
  - destruct (Clipboard.concealed options).
    + rewrite lookup_insert_ne by (intros Heq; apply (Hmarker eq_refl); symmetry; exact Heq).
      rewrite Hsel. apply setOffers_lookup_last, Hl2.
    + rewrite Hsel. apply setOffers_lookup_last, Hl2.
  - intros format bytes Hl. destruct (Clipboard.concealed options).
    + apply lookup_insert_Some in Hl as [[<- <-]|[_ Hl]]; [right; auto|].
      left. apply setOffers_lookup_Some in Hl as [Hl|Hl]; [|exact Hl].
      rewrite lookup_empty in Hl. discriminate.
    + left. apply setOffers_lookup_Some in Hl as [Hl|Hl]; [|exact Hl].
      rewrite lookup_empty in Hl. discriminate.
Qed.

(** pasteContent sends a shortcut only after the copy went through and only
    when the window manager forwards input: then exactly one, to the focused
    window, Shift-paste when that window belongs to a terminal emulator the
    application database knows and paste otherwise. Whenever the copy went
    through the content is on the clipboard, also when pasteContent
    returns false for lack of input forwarding. *)
Theorem pasteContent_outcome (fs : FileEnv) (wm : PasteEnv) (content : Clipboard.Content)
    (options : Clipboard.CopyOptions) (clipboard : QMimeData) :
  let result := pasteContent fs wm content options clipboard in
  let copied := copyContent fs content options clipboard in
  fst (fst result) = fst copied
  /\ (snd result = true <-> snd copied = true /\ supportsInputForwarding wm = true)
  /\ (snd result = false -> snd (fst result) = [])
  /\ (snd result = true ->
      exists shortcut,
        snd (fst result) = [(getFocusedWindow wm, shortcut)]
        /\ (shortcut = shiftPaste <->
            exists app, appDb_find wm (wmClass (getFocusedWindow wm)) = Some app
                        /\ isTerminalEmulator app = true)).
Proof.
  intros result copied. subst result copied. unfold pasteContent.
  destruct (copyContent fs content options clipboard) as [cb ok].
  destruct ok; cbn [negb fst snd].
  - destruct (supportsInputForwarding wm); cbn [negb fst snd].
    + split; [reflexivity|]. split; [tauto|]. split; [discriminate|].
      intros _. eexists. split; [reflexivity|].
      destruct (appDb_find wm (wmClass (getFocusedWindow wm))) as [app|].
      * destruct (isTerminalEmulator app) eqn:Hterm.
        -- split; [intros _; exists app; auto | reflexivity].
        -- split; [discriminate|]. intros (a & Ha & Hta). congruence.
      * split; [discriminate|]. intros (a & Ha & _). discriminate Ha.
    + split; [reflexivity|]. split; [|split; [reflexivity | discriminate]].
      split; [discriminate | intros [_ Hf]; discriminate Hf].
  - split; [reflexivity|]. split; [|split; [reflexivity | discriminate]].
    split; [discriminate | intros [Hf _]; discriminate Hf].
Qed.

End Copy.

Lemma concealed_copy_never_recorded_witness :
  @saveSelection TestPlatform (fineEnv "s1" "o1" 5) concealedCopy freshService
  = (freshService, []).
Proof.
  apply (@concealed_copy_never_recorded TestPlatform (mkFileEnv (fun _ => "") (fun _ => None))
           (Clipboard.Text "hunter2") (Clipboard.mkOptions true) ∅).
  - reflexivity.
  - reflexivity.
  - intros format bytes Hl. cbn in Hl.
    apply lookup_insert_Some in Hl as [[<- <-]|[_ Hl]]; [right; left; reflexivity|].
    apply lookup_insert_Some in Hl as [[<- <-]|[_ Hl]]; [left; reflexivity|].
    rewrite lookup_empty in Hl. discriminate.
Defined.

Lemma copySelection_last_offer_wins_witness :
  fst (@copySelection TestPlatform
         (mkSelection [mkOffer "text/plain" "old"; mkOffer "text/html" "<b>x</b>";
                       mkOffer "text/plain" "new"] None)
         (Clipboard.mkOptions false) ∅) !! "text/plain" = Some "new".
Proof.
  refine (proj1 (proj2 (@copySelection_last_offer_wins TestPlatform
            (mkSelection [mkOffer "text/plain" "old"; mkOffer "text/html" "<b>x</b>";
                          mkOffer "text/plain" "new"] None)
            (Clipboard.mkOptions false) ∅
            [mkOffer "text/plain" "old"; mkOffer "text/html" "<b>x</b>"] []
            (mkOffer "text/plain" "new") eq_refl _ _))).
  - intros x [].
  - discriminate.
Defined.

(** ** Reading back what was stored *)

Lemma filter_selectionId_none (id : QString) (rows : list InsertClipboardOfferPayload) :
  (forall o, In o rows -> op_selectionId o <> id) ->
  List.filter (fun o => String.eqb (op_selectionId o) id) rows = [].
Proof.
  induction rows as [|o rows IH]; intros Hno; cbn [List.filter]; [reflexivity|].
  rewrite (proj2 (String.eqb_neq _ _) (Hno o (or_introl eq_refl))).
  apply IH. intros x Hx. apply Hno. right. exact Hx.
Qed.

Section Retrieval.
Context `{Platform} `{Decryption}.

(** After a full insert under a fresh selection identifier the database
    finds the selection with the one offer row just written. *)
Lemma findSelection_after_insert (env : SaveEnv) (selection : ClipboardSelection)
    (svc : ClipboardService) (offerData : QByteArray) (mime : QString) :
  reachesTransaction selection svc offerData mime ->
  hashStored (md5Hex offerData) (database svc) = false ->
  insertSelection_ok env = true -> indexSelectionContent_ok env = true ->
  insertOffer_ok env = true -> open_ok env = true -> write_ok env = true ->
  (forall o, In o (ClipboardDatabase.offerTable (database svc)) ->
             op_selectionId o <> uuid_selection env) ->
  findSelection (uuid_selection env) (database (fst (saveSelection env selection svc)))
  = Some [offerRowOf env (m_localEncryptionKey svc) offerData mime]
  /\ m_dataDir (fst (saveSelection env selection svc)) !! uuid_offer env
     = Some (blobBytes (m_localEncryptionKey svc) offerData).
Proof.
  intros Hreach Hnew H1 H2 H3 H4 H5 Hfresh.
  rewrite (saveSelection_insert env selection svc offerData mime) by assumption.
  cbn [fst database m_dataDir]. split; [|apply lookup_insert_eq].
  unfold findSelection.
  cbn [ClipboardDatabase.selectionTable ClipboardDatabase.offerTable].
  rewrite existsb_app. cbn [existsb].
  replace (ClipboardDatabase.hasId (uuid_selection env)
             (selectionRowOf env (sourceApp selection) offerData mime))
    with true by (symmetry; unfold ClipboardDatabase.hasId; cbn; apply String.eqb_refl).
  rewrite orb_true_r, List.filter_app, (filter_selectionId_none _ _ Hfresh).
  cbn [List.filter app offerRowOf op_selectionId]. rewrite String.eqb_refl. reflexivity.
Qed.

(** Round trip. A capture stored in full under a fresh selection identifier
    reads back through retrieveSelectionById as one offer with the mime type
    and the bytes of its representative, whether it was stored raw or, given
    that decryption undoes encryption under the key, encrypted. The source
    application is not read back. *)
Theorem save_then_retrieve_round_trip (env : SaveEnv) (selection : ClipboardSelection)
    (svc : ClipboardService) (offerData : QByteArray) (mime : QString) :
  reachesTransaction selection svc offerData mime ->
  hashStored (md5Hex offerData) (database svc) = false ->
  insertSelection_ok env = true -> indexSelectionContent_ok env = true ->
  insertOffer_ok env = true -> open_ok env = true -> write_ok env = true ->
  (forall o, In o (ClipboardDatabase.offerTable (database svc)) ->
             op_selectionId o <> uuid_selection env) ->
  (forall k, m_localEncryptionKey svc = Some k ->
             AES256GCM_decrypt (AES256GCM_encrypt offerData k) k = offerData) ->
  retrieveSelectionById (uuid_selection env) (fst (saveSelection env selection svc))
  = Some (mkSelection [mkOffer mime offerData] None).
Proof.
  intros Hreach Hnew H1 H2 H3 H4 H5 Hfresh Hcrypt.
  destruct (findSelection_after_insert env selection svc offerData mime
              Hreach Hnew H1 H2 H3 H4 H5 Hfresh) as [Hfind Hblob].
  unfold retrieveSelectionById. rewrite Hfind. cbn [populate offerRowOf op_id].
  rewrite Hblob.
  assert (Hkey : m_localEncryptionKey (fst (saveSelection env selection svc))
                 = m_localEncryptionKey svc).
  { rewrite (saveSelection_insert env selection svc offerData mime) by assumption.
    reflexivity. }
  rewrite Hkey. cbn [op_mimeType op_encryption].
  unfold decryptOffer, markerOf, blobBytes.
  destruct (m_localEncryptionKey svc) as [k|]; [|reflexivity].
  rewrite (Hcrypt k eq_refl). reflexivity.
Qed.

(** What was stored encrypted and is read back without a key comes back as
    an offer with its mime type and no bytes: the selection is found, the
    offer is not skipped, and no error is reported. *)
Theorem encrypted_offer_reads_back_empty_without_key (env : SaveEnv)
    (selection : ClipboardSelection) (svc : ClipboardService)
    (offerData : QByteArray) (mime : QString) (key : QByteArray) :
  m_localEncryptionKey svc = Some key ->
  reachesTransaction selection svc offerData mime ->
  hashStored (md5Hex offerData) (database svc) = false ->
  insertSelection_ok env = true -> indexSelectionContent_ok env = true ->
  insertOffer_ok env = true -> open_ok env = true -> write_ok env = true ->
  (forall o, In o (ClipboardDatabase.offerTable (database svc)) ->
             op_selectionId o <> uuid_selection env) ->
  retrieveSelectionById (uuid_selection env)
    (withoutKey (fst (saveSelection env selection svc)))
  = Some (mkSelection [mkOffer mime ""] None).
Proof.
  intros Hkey Hreach Hnew H1 H2 H3 H4 H5 Hfresh.
  destruct (findSelection_after_insert env selection svc offerData mime
              Hreach Hnew H1 H2 H3 H4 H5 Hfresh) as [Hfind Hblob].
  unfold retrieveSelectionById, withoutKey. cbn [database m_dataDir m_localEncryptionKey].
  rewrite Hfind. cbn [populate offerRowOf op_id]. rewrite Hblob.
  cbn [op_mimeType op_encryption]. rewrite Hkey. reflexivity.
Qed.

(** A stored selection whose blob file has gone missing is still found, with
    no offers; and copySelection refuses such a selection, returning false and
    leaving the clipboard as it was. *)
Theorem missing_blob_reads_back_as_empty_selection (env : SaveEnv)
    (selection : ClipboardSelection) (svc : ClipboardService)
    (offerData : QByteArray) (mime : QString)
    (options : Clipboard.CopyOptions) (clipboard : QMimeData) :
  reachesTransaction selection svc offerData mime ->
  hashStored (md5Hex offerData) (database svc) = false ->
  insertSelection_ok env = true -> indexSelectionContent_ok env = true ->
  insertOffer_ok env = true -> open_ok env = true -> write_ok env = true ->
  (forall o, In o (ClipboardDatabase.offerTable (database svc)) ->
             op_selectionId o <> uuid_selection env) ->
  let saved := fst (saveSelection env selection svc) in
  let damaged :=
    mkService (m_monitoring saved) (m_isEncryptionReady saved) (m_localEncryptionKey saved)
      (database saved) (delete (uuid_offer env) (m_dataDir saved)) in
  retrieveSelectionById (uuid_selection env) damaged = Some (mkSelection [] None)
  /\ copySelection (mkSelection [] None) options clipboard = (clipboard, false).
Proof.
  intros Hreach Hnew H1 H2 H3 H4 H5 Hfresh saved damaged. subst damaged saved.
  destruct (findSelection_after_insert env selection svc offerData mime
              Hreach Hnew H1 H2 H3 H4 H5 Hfresh) as [Hfind _].
  split; [|reflexivity].
  unfold retrieveSelectionById. cbn [database m_dataDir m_localEncryptionKey].
  rewrite Hfind. cbn [populate offerRowOf op_id]. rewrite lookup_delete_eq. reflexivity.
Qed.

End Retrieval.

(** A service that holds a key. *)
Lemma save_then_retrieve_round_trip_witness :
  @retrieveSelectionById TestDecryption "s1"
    (fst (@saveSelection TestPlatform (fineEnv "s1" "o1" 5) copyFoo
            (mkService true true (Some "key") ClipboardDatabase.emptyDb ∅)))
  = Some (mkSelection [mkOffer "text/plain" "foo"] None).
Proof.
  apply (@save_then_retrieve_round_trip TestPlatform TestDecryption (fineEnv "s1" "o1" 5)
           copyFoo (mkService true true (Some "key") ClipboardDatabase.emptyDb ∅)
           "foo" "text/plain"); try reflexivity.
  - repeat split.
  - intros o [].
  - intros k Hk. injection Hk as <-. reflexivity.
Defined.

Lemma encrypted_offer_reads_back_empty_without_key_witness :
  @retrieveSelectionById TestDecryption "s1"
    (withoutKey (fst (@saveSelection TestPlatform (fineEnv "s1" "o1" 5) copyFoo
                        (mkService true true (Some "key") ClipboardDatabase.emptyDb ∅))))
  = Some (mkSelection [mkOffer "text/plain" ""] None).
Proof.
  apply (@encrypted_offer_reads_back_empty_without_key TestPlatform TestDecryption
           (fineEnv "s1" "o1" 5) copyFoo
           (mkService true true (Some "key") ClipboardDatabase.emptyDb ∅)
           "foo" "text/plain" "key"); try reflexivity.
  - repeat split.
  - intros o [].
Defined.

Lemma missing_blob_reads_back_as_empty_selection_witness :
  @retrieveSelectionById TestDecryption "s1"
    (mkService true true None
       (database (fst (@saveSelection TestPlatform (fineEnv "s1" "o1" 5) copyFoo freshService)))
       (delete "o1"
          (m_dataDir (fst (@saveSelection TestPlatform (fineEnv "s1" "o1" 5) copyFoo
                             freshService)))))
  = Some (mkSelection [] None).
Proof.
  refine (proj1 (@missing_blob_reads_back_as_empty_selection TestPlatform TestDecryption
            (fineEnv "s1" "o1" 5) copyFoo freshService "foo" "text/plain"
            (Clipboard.mkOptions false) ∅ _ eq_refl eq_refl eq_refl eq_refl eq_refl eq_refl _)).
  - repeat split.
  - intros o [].
Defined.

(** ** The encryption key *)

(** getLocalEncryptionKey resolves to no key exactly when the read yields
    nothing (an error, or no entry) and the write fails, and then it leaves
    the keychain as it was. A key it resolves to is the key the keychain
    holds under the name afterwards; other entries are never touched; an
    entry that can be read is returned and not replaced; but when the read
    job fails and the write goes through, the entry is replaced by the fresh
    key whatever it held. *)
Theorem getLocalEncryptionKey_outcomes (env : KeychainEnv)
    (keychain : gmap QString QByteArray) :
  let result := getLocalEncryptionKey env keychain in
  (snd result = None <->
     (readFails env = true \/ keychain !! KEYCHAIN_ENCRYPTION_KEY_NAME = None)
     /\ writeFails env = true)
  /\ (snd result = None -> fst result = keychain)
  /\ (forall k, snd result = Some k ->
        fst result !! KEYCHAIN_ENCRYPTION_KEY_NAME = Some k)
  /\ (forall name, name <> KEYCHAIN_ENCRYPTION_KEY_NAME ->
        fst result !! name = keychain !! name)
  /\ (forall k, readFails env = false ->
        keychain !! KEYCHAIN_ENCRYPTION_KEY_NAME = Some k ->
        result = (keychain, Some k))
  /\ (readFails env = true -> writeFails env = false ->
      result = (<[KEYCHAIN_ENCRYPTION_KEY_NAME := generatedKey env]> keychain,
                Some (generatedKey env))).
Proof.
  intros result. subst result. unfold getLocalEncryptionKey.
  split; [|split; [|split; [|split; [|split]]]].
  - destruct (readFails env), (writeFails env),
      (keychain !! KEYCHAIN_ENCRYPTION_KEY_NAME) as [old|]; cbn [fst snd];
      intuition congruence.
  - destruct (readFails env), (writeFails env),
      (keychain !! KEYCHAIN_ENCRYPTION_KEY_NAME) as [old|]; cbn [fst snd];
      intros Hn; first [reflexivity | discriminate Hn].
  - intros k.
    destruct (readFails env), (writeFails env),
      (keychain !! KEYCHAIN_ENCRYPTION_KEY_NAME) as [old|] eqn:Hold; cbn [fst snd];
      intros Hk; try discriminate Hk; injection Hk as <-;
      first [exact Hold | apply lookup_insert_eq].
  - intros name Hne.
    destruct (readFails env), (writeFails env),
      (keychain !! KEYCHAIN_ENCRYPTION_KEY_NAME) as [old|]; cbn [fst snd];
      first [reflexivity | apply lookup_insert_ne; congruence].
  - intros k Hr Hk. rewrite Hr, Hk. reflexivity.
  - intros Hr Hw. rewrite Hr, Hw. reflexivity.
Qed.

(** A key the acquisition resolves to is held by the keychain afterwards. *)
Lemma acquired_key_is_held (env : KeychainEnv) (keychain : gmap QString QByteArray)
    (key : QByteArray) :
  snd (getLocalEncryptionKey env keychain) = Some key ->
  fst (getLocalEncryptionKey env keychain) !! KEYCHAIN_ENCRYPTION_KEY_NAME = Some key.
Proof.
  unfold getLocalEncryptionKey.
  destruct (readFails env), (writeFails env),
    (keychain !! KEYCHAIN_ENCRYPTION_KEY_NAME) as [old|] eqn:Hold; cbn [fst snd];
    intros Hk; try discriminate Hk; injection Hk as <-;
    first [exact Hold | apply lookup_insert_eq].
Qed.

(** Acquiring the key settles: once a run has resolved to a key, a later run
    whose read job does not fail resolves to the same key and does not write
    the keychain. *)
Theorem key_acquisition_settles (env1 env2 : KeychainEnv)
    (keychain : gmap QString QByteArray) (key : QByteArray) :
  snd (getLocalEncryptionKey env1 keychain) = Some key ->
  readFails env2 = false ->
  getLocalEncryptionKey env2 (fst (getLocalEncryptionKey env1 keychain))
  = (fst (getLocalEncryptionKey env1 keychain), Some key).
Proof.
  intros Hfirst Hread.
  unfold getLocalEncryptionKey at 1.
  rewrite Hread, (acquired_key_is_held env1 keychain key Hfirst). reflexivity.
Qed.

Lemma key_acquisition_settles_witness :
  getLocalEncryptionKey (mkKeychainEnv false "second" false)
    (fst (getLocalEncryptionKey (mkKeychainEnv false "first" false) ∅))
  = (fst (getLocalEncryptionKey (mkKeychainEnv false "first" false) ∅), Some "first").
Proof.
  apply (key_acquisition_settles (mkKeychainEnv false "first" false)
           (mkKeychainEnv false "second" false) ∅ "first"); reflexivity.
Defined.

(** ** What saveSelection can do to the store *)

Section Shape.
Context `{Platform}.

(** One call of saveSelection leaves the store as it was, or bubbles a
    stored hash up, or commits an insert: the selection row, the offer row
    unless its insertion failed, the index entry for an indexed kind, and the
    blob file, empty if the write failed. *)
Lemma saveSelection_shape (env : SaveEnv) (selection : ClipboardSelection)
    (svc : ClipboardService) :
  let svc' := fst (saveSelection env selection svc) in
  m_monitoring svc' = m_monitoring svc
  /\ m_isEncryptionReady svc' = m_isEncryptionReady svc
  /\ m_localEncryptionKey svc' = m_localEncryptionKey svc
  /\ ((database svc' = database svc /\ m_dataDir svc' = m_dataDir svc)
      \/ (exists offerData mime,
            chooseRepresentative (filterOffers (offers selection)) = Some (offerData, mime)
            /\ hashStored (md5Hex offerData) (database svc) = true
            /\ database svc'
               = fst (ClipboardDatabase.tryBubbleUpSelection (now env) (md5Hex offerData)
                        (database svc))
            /\ m_dataDir svc' = m_dataDir svc)
      \/ (exists offerData mime,
            chooseRepresentative (filterOffers (offers selection)) = Some (offerData, mime)
            /\ hashStored (md5Hex offerData) (database svc) = false
            /\ ClipboardDatabase.selectionTable (database svc')
               = ClipboardDatabase.selectionTable (database svc)
                   ++ [selectionRowOf env (sourceApp selection) offerData mime]
            /\ ClipboardDatabase.offerTable (database svc')
               = ClipboardDatabase.offerTable (database svc)
                   ++ (if insertOffer_ok env
                       then [offerRowOf env (m_localEncryptionKey svc) offerData mime]
                       else [])
            /\ ClipboardDatabase.contentIndex (database svc')
               = ClipboardDatabase.contentIndex (database svc)
                   ++ (if indexedKind (getKind (mkOffer mime offerData))
                       then [(uuid_selection env, offerData)] else [])
            /\ m_dataDir svc'
               = <[uuid_offer env :=
                     if write_ok env then blobBytes (m_localEncryptionKey svc) offerData
                     else ""]> (m_dataDir svc))).
Proof.
  intros svc'. subst svc'. unfold saveSelection.
  destruct (negb (m_monitoring svc) || negb (m_isEncryptionReady svc)); [repeat split; auto|].
  destruct (isClearSelection _); [repeat split; auto|].
  destruct (isConcealed _); [repeat split; auto|].
  destruct (chooseRepresentative _) as [[offerData mime]|]; [|repeat split; auto].
  unfold ClipboardDatabase.transaction, saveHandler, ClipboardDatabase.tryBubbleUpSelection.
  destruct (existsb (ClipboardDatabase.hasHash (md5Hex offerData))
              (ClipboardDatabase.selectionTable (database svc))) eqn:Hstored.
  { cbn [fst snd m_monitoring m_isEncryptionReady m_localEncryptionKey database m_dataDir].
    split; [reflexivity|]. split; [reflexivity|]. split; [reflexivity|].
    right. left. exists offerData, mime. unfold hashStored. rewrite Hstored. auto. }
  unfold ClipboardDatabase.insertSelection, ClipboardDatabase.indexSelectionContent,
    ClipboardDatabase.insertOffer.
  destruct (insertSelection_ok env), (indexSelectionContent_ok env), (insertOffer_ok env),
    (open_ok env), (write_ok env), (getKind (mkOffer mime offerData)) eqn:Hkind,
    (m_localEncryptionKey svc) eqn:Hkey;
    cbn [negb fst snd m_monitoring m_isEncryptionReady m_localEncryptionKey database m_dataDir
           ClipboardDatabase.selectionTable ClipboardDatabase.offerTable
           ClipboardDatabase.contentIndex];
    (split; [reflexivity|]); (split; [reflexivity|]); (split; [auto|]);
    first
      [ left; split; reflexivity
      | right; right; exists offerData, mime;
        unfold hashStored, selectionRowOf, offerRowOf, blobBytes, markerOf, indexedKind;
        rewrite ?Hstored, ?Hkind, ?Hkey; cbn [negb];
        rewrite ?insert_insert_eq, ?app_nil_r; repeat split; reflexivity ].
Qed.

End Shape.

(** ** Invariants of the store *)

Lemma NoDup_map_filter {A B : Type} (f : A -> B) (p : A -> bool) (l : list A) :
  List.NoDup (map f l) -> List.NoDup (map f (List.filter p l)).
Proof.
  induction l as [|a l IH]; cbn [map List.filter]; intros Hnd; [exact Hnd|].
  apply List.NoDup_cons_iff in Hnd as [Hnotin Hnd].
  destruct (p a); [|apply IH, Hnd]. cbn [map]. apply List.NoDup_cons_iff.
  split; [|apply IH, Hnd].
  intros Hin. apply Hnotin. apply in_map_iff in Hin as (x & Hx & Hxin).
  apply in_map_iff. exists x. split; [exact Hx|]. apply filter_In in Hxin. tauto.
Qed.

Lemma NoDup_map_inj {A B : Type} (f : A -> B) (l : list A) (a b : A) :
  List.NoDup (map f l) -> In a l -> In b l -> f a = f b -> a = b.
Proof.
  induction l as [|x l IH]; cbn [map]; intros Hnd Ha Hb Hf; [destruct Ha|].
  apply List.NoDup_cons_iff in Hnd as [Hnotin Hnd].
  destruct Ha as [<-|Ha], Hb as [<-|Hb]; auto.
  - exfalso. apply Hnotin. rewrite Hf. apply in_map, Hb.
  - exfalso. apply Hnotin. rewrite <- Hf. apply in_map, Ha.
Qed.

Lemma bubbleUp_tables (time : nat) (hash : QString) (db : ClipboardDatabase.t) :
  ClipboardDatabase.offerTable (fst (ClipboardDatabase.tryBubbleUpSelection time hash db))
  = ClipboardDatabase.offerTable db
  /\ map ClipboardDatabase.payload
       (ClipboardDatabase.selectionTable
          (fst (ClipboardDatabase.tryBubbleUpSelection time hash db)))
     = map ClipboardDatabase.payload (ClipboardDatabase.selectionTable db).
Proof.
  unfold ClipboardDatabase.tryBubbleUpSelection.
  destruct (existsb _ _); cbn [fst ClipboardDatabase.offerTable ClipboardDatabase.selectionTable];
    [|split; reflexivity].
  split; [reflexivity|]. rewrite map_map. apply map_ext.
  intros r. destruct (ClipboardDatabase.hasHash hash r); reflexivity.
Qed.

Lemma setPinned_tables (id : QString) (value : bool) (db : ClipboardDatabase.t) :
  ClipboardDatabase.offerTable (fst (ClipboardDatabase.setPinned id value db))
  = ClipboardDatabase.offerTable db
  /\ map ClipboardDatabase.payload
       (ClipboardDatabase.selectionTable (fst (ClipboardDatabase.setPinned id value db)))
     = map ClipboardDatabase.payload (ClipboardDatabase.selectionTable db).
Proof.
  unfold ClipboardDatabase.setPinned.
  destruct (existsb _ _); cbn [fst ClipboardDatabase.offerTable ClipboardDatabase.selectionTable];
    [|split; reflexivity].
  split; [reflexivity|]. rewrite map_map. apply map_ext.
  intros r. destruct (ClipboardDatabase.hasId id r); reflexivity.
Qed.

(** Membership of a payload among the rows of a table. *)
Lemma payload_In (t1 t2 : list ClipboardDatabase.SelectionRow) (r : ClipboardDatabase.SelectionRow) :
  map ClipboardDatabase.payload t1 = map ClipboardDatabase.payload t2 ->
  In r t1 ->
  exists r0, In r0 t2 /\ ClipboardDatabase.payload r0 = ClipboardDatabase.payload r.
Proof.
  intros Hmap Hin. apply (in_map ClipboardDatabase.payload) in Hin. rewrite Hmap in Hin.
  apply in_map_iff in Hin as (r0 & Hp & Hr0). exists r0. auto.
Qed.

Section Invariants.
Context `{Platform}.

Lemma chooseRepresentative_mime (v : list ClipboardDataOffer) (offerData : QByteArray)
    (mime : QString) :
  chooseRepresentative v = Some (offerData, mime) ->
  mime = "text/plain" \/ startsWith mime "image/" = true.
Proof.
  unfold chooseRepresentative.
  destruct (find (fun offer => String.eqb (mimeType offer) "text/plain") v);
    [intros Hc; injection Hc as _ <-; left; reflexivity|].
  destruct (find (fun offer => startsWith (mimeType offer) "image/") v) as [image|] eqn:Himage.
  - intros Hc. injection Hc as _ <-. right. exact (proj2 (find_some _ _ Himage)).
  - destruct (find (fun offer => String.eqb (mimeType offer) "text/html") v);
      [intros Hc; injection Hc as _ <-; left; reflexivity | discriminate].
Qed.

Lemma selectionRowOf_storable (env : SaveEnv) (source : option QString)
    (offerData : QByteArray) (mime : QString) :
  mime = "text/plain" \/ startsWith mime "image/" = true ->
  storableSelection (ClipboardDatabase.payload (selectionRowOf env source offerData mime)).
Proof.
  intros Hmime. unfold storableSelection, selectionRowOf.
  cbn [ClipboardDatabase.payload sp_offerCount sp_preferredMimeType sp_kind].
  split; [reflexivity|]. destruct Hmime as [->|Himage].
  - left. split; [reflexivity|]. unfold getKind. cbn [mimeType data].
    change (startsWith "text/plain" "image/") with false.
    change (startsWith "text/plain" "text/") with true.
    change (String.eqb "text/plain" "text/html") with false. cbn match.
    destruct (isValid (QUrl_fromEncoded offerData)
              && negb (isEmpty (scheme (QUrl_fromEncoded offerData)))); auto.
  - right. split; [exact Himage|]. unfold getKind. cbn [mimeType]. rewrite Himage.
    reflexivity.
Qed.

Lemma call_storable (c : Call) (svc : ClipboardService) :
  (forall r, In r (ClipboardDatabase.selectionTable (database svc)) ->
             storableSelection (ClipboardDatabase.payload r)) ->
  forall r, In r (ClipboardDatabase.selectionTable (database (call c svc))) ->
            storableSelection (ClipboardDatabase.payload r).
Proof.
  intros Hinv r. destruct c as [env selection|fsError selectionId|ok fs|id pinned|value|res];
    cbn [call].
  - destruct (saveSelection_shape env selection svc)
      as (_ & _ & _ & [[Hdb _]|[(d & m & _ & _ & Hdb & _)|(d & m & Hrep & _ & Ht & _)]]).
    + rewrite Hdb. apply Hinv.
    + rewrite Hdb. intros Hin.
      destruct (payload_In _ _ r (proj2 (bubbleUp_tables _ _ _)) Hin) as (r0 & Hr0 & <-).
      apply Hinv, Hr0.
    + rewrite Ht. intros Hin. apply in_app_or in Hin as [Hin|[<-|[]]]; [apply Hinv, Hin|].
      apply selectionRowOf_storable, (chooseRepresentative_mime _ _ _ Hrep).
  - rewrite removeSelection_state. cbn [database].
    unfold ClipboardDatabase.removeSelection.
    destruct (existsb _ _); cbn [fst ClipboardDatabase.selectionTable];
      [|apply Hinv].
    intros Hin. apply filter_In in Hin. apply Hinv. tauto.
  - rewrite removeAllSelections_state.
    destruct ok; cbn [database ClipboardDatabase.selectionTable ClipboardDatabase.emptyDb];
      [intros [] | apply Hinv].
  - unfold setPinned.
    destruct (ClipboardDatabase.setPinned id pinned (database svc)) as [db done] eqn:Hpin.
    destruct done; cbn [negb fst database]; [|apply Hinv].
    intros Hin. pose proof (proj2 (setPinned_tables id pinned (database svc))) as Hmap.
    rewrite Hpin in Hmap. cbn [fst] in Hmap.
    destruct (payload_In _ _ r Hmap Hin) as (r0 & Hr0 & <-). apply Hinv, Hr0.
  - cbn. apply Hinv.
  - cbn. apply Hinv.
Qed.

(** Whatever calls are made, every stored selection has one offer and is
    either text/plain of kind Text or Link or an image type of kind Image:
    the pipeline never stores kind Unknown, and never stores text/html (an
    HTML-only copy is stored as text/plain). *)
Theorem stored_selections_are_text_or_image (cs : list Call) (svc : ClipboardService) :
  (forall r, In r (ClipboardDatabase.selectionTable (database svc)) ->
             storableSelection (ClipboardDatabase.payload r)) ->
  forall r, In r (ClipboardDatabase.selectionTable (database (calls cs svc))) ->
            storableSelection (ClipboardDatabase.payload r).
Proof.
  unfold calls. revert svc. induction cs as [|c cs IH]; intros svc Hinv; cbn [fold_left].
  - exact Hinv.
  - apply IH. apply call_storable, Hinv.
Qed.

Lemma call_offersOwned (c : Call) (svc : ClipboardService) :
  offersOwned svc -> offersOwned (call c svc).
Proof.
  unfold offersOwned. intros Hinv o.
  destruct c as [env selection|fsError selectionId|ok fs|id pinned|value|res];
    cbn [call].
  - destruct (saveSelection_shape env selection svc)
      as (_ & _ & _ & [[Hdb _]|[(d & m & _ & _ & Hdb & _)|(d & m & _ & _ & Ht & Ho & _)]]).
    + rewrite Hdb. apply Hinv.
    + rewrite Hdb. rewrite (proj1 (bubbleUp_tables _ _ _)). intros Hin.
      destruct (Hinv o Hin) as (r0 & Hr0 & Hid).
      apply (in_map ClipboardDatabase.payload) in Hr0.
      rewrite <- (proj2 (bubbleUp_tables (now env) (md5Hex d) (database svc))) in Hr0.
      apply in_map_iff in Hr0 as (r & Hp & Hr). exists r. split; [exact Hr|].
      rewrite Hp. exact Hid.
    + rewrite Ho, Ht. intros Hin. apply in_app_or in Hin as [Hin|Hin].
      * destruct (Hinv o Hin) as (r0 & Hr0 & Hid). exists r0.
        split; [apply in_or_app; left; exact Hr0 | exact Hid].
      * destruct (insertOffer_ok env); [|destruct Hin].
        destruct Hin as [<-|[]].
        exists (selectionRowOf env (sourceApp selection) d m).
        split; [apply in_or_app; right; left; reflexivity | reflexivity].
  - rewrite removeSelection_state. cbn [database].
    unfold ClipboardDatabase.removeSelection.
    destruct (existsb _ _);
      cbn [fst ClipboardDatabase.selectionTable ClipboardDatabase.offerTable];
      [|apply Hinv].
    intros Hin. apply filter_In in Hin as [Hin Hkeep].
    destruct (Hinv o Hin) as (r0 & Hr0 & Hid). exists r0. split; [|exact Hid].
    apply filter_In. split; [exact Hr0|].
    unfold ClipboardDatabase.hasId. rewrite Hid. exact Hkeep.
  - rewrite removeAllSelections_state.
    destruct ok;
      cbn [database ClipboardDatabase.selectionTable ClipboardDatabase.offerTable
             ClipboardDatabase.emptyDb];
      [intros [] | apply Hinv].
  - unfold setPinned.
    destruct (ClipboardDatabase.setPinned id pinned (database svc)) as [db done] eqn:Hpin.
    destruct done; cbn [negb fst database]; [|apply Hinv].
    pose proof (setPinned_tables id pinned (database svc)) as [Hoff Hmap].
    rewrite Hpin in Hoff, Hmap. cbn [fst] in Hoff, Hmap. rewrite Hoff. intros Hin.
    destruct (Hinv o Hin) as (r0 & Hr0 & Hid).
    apply (in_map ClipboardDatabase.payload) in Hr0. rewrite <- Hmap in Hr0.
    apply in_map_iff in Hr0 as (r & Hp & Hr). exists r. split; [exact Hr|].
    rewrite Hp. exact Hid.
  - cbn. apply Hinv.
  - cbn. apply Hinv.
Qed.

(** Whatever calls are made, and whichever steps fail, no offer row is left
    without its selection row. *)
Theorem no_dangling_offer_rows (cs : list Call) (svc : ClipboardService) :
  offersOwned svc -> offersOwned (calls cs svc).
Proof.
  unfold calls. revert svc. induction cs as [|c cs IH]; intros svc Hinv; cbn [fold_left].
  - exact Hinv.
  - apply IH. apply call_offersOwned, Hinv.
Qed.

End Invariants.

Lemma stored_selections_are_text_or_image_witness :
  (forall r, In r (ClipboardDatabase.selectionTable (database freshService)) ->
             storableSelection (ClipboardDatabase.payload r))
  /\ (forall r, In r (ClipboardDatabase.selectionTable
                        (database (@calls TestPlatform sessionCalls freshService))) ->
                storableSelection (ClipboardDatabase.payload r)).
Proof.
  assert (Hempty : forall r, In r (ClipboardDatabase.selectionTable (database freshService)) ->
                             storableSelection (ClipboardDatabase.payload r)).
  { intros r []. }
  split; [exact Hempty|].
  exact (@stored_selections_are_text_or_image TestPlatform sessionCalls freshService Hempty).
Defined.

Lemma no_dangling_offer_rows_witness :
  offersOwned freshService /\ offersOwned (@calls TestPlatform sessionCalls freshService).
Proof.
  assert (Hempty : offersOwned freshService).
  { intros o []. }
  split; [exact Hempty|].
  exact (@no_dangling_offer_rows TestPlatform sessionCalls freshService Hempty).
Defined.

Section Blobs.
Context `{Platform}.

Lemma call_blobsPresent (c : Call) (svc : ClipboardService) :
  blobsPresent svc ->
  match c with
  | CallSaveSelection env _ =>
      ~ In (uuid_offer env) (map op_id (ClipboardDatabase.offerTable (database svc)))
  | _ => True
  end ->
  blobsPresent (call c svc).
Proof.
  unfold blobsPresent. intros [Hnd Hblob] Hfresh.
  destruct c as [env selection|fsError selectionId|ok fs|id pinned|value|res];
    cbn [call].
  - destruct (saveSelection_shape env selection svc)
      as (_ & _ & _ & [[Hdb Hf]|[(d & m & _ & _ & Hdb & Hf)|(d & m & _ & _ & _ & Ho & _ & Hf)]]).
    + rewrite Hdb, Hf. auto.
    + rewrite Hdb, Hf, (proj1 (bubbleUp_tables _ _ _)). auto.
    + rewrite Ho, Hf. split.
      * rewrite map_app. destruct (insertOffer_ok env); cbn [map]; [|rewrite app_nil_r; exact Hnd].
        apply List.NoDup_app; [exact Hnd | apply List.NoDup_cons; [intros [] | constructor] |].
        intros x Hx [<-|[]]. exact (Hfresh Hx).
      * intros o Hin.
        destruct (String.eqb_spec (uuid_offer env) (op_id o)) as [->|Hne].
        -- eexists. apply lookup_insert_eq.
        -- rewrite lookup_insert_ne by exact Hne.
           apply in_app_or in Hin as [Hin|Hin]; [apply Hblob, Hin|].
           destruct (insertOffer_ok env); [|destruct Hin].
           destruct Hin as [<-|[]]. exfalso. apply Hne. reflexivity.
  - rewrite removeSelection_state. cbn [database m_dataDir].
    unfold ClipboardDatabase.removeSelection.
    destruct (existsb _ _);
      cbn [fst snd removeFiles ClipboardDatabase.offerTable]; [|auto].
    split; [apply NoDup_map_filter, Hnd|].
    intros o Hin. apply filter_In in Hin as [Hin Hkeep].
    destruct (Hblob o Hin) as [bytes Hbytes]. exists bytes.
    rewrite <- Hbytes. apply removeFiles_lookup.
    intros Hgone. apply in_map_iff in Hgone as (g & Hid & Hg).
    apply filter_In in Hg as [Hg Hsel].
    rewrite (NoDup_map_inj op_id _ g o Hnd Hg Hin Hid) in Hsel.
    rewrite Hsel in Hkeep. discriminate Hkeep.
  - rewrite removeAllSelections_state.
    destruct ok;
      cbn [database m_dataDir ClipboardDatabase.offerTable ClipboardDatabase.emptyDb];
      [|auto].
    split; [constructor | intros o []].
  - unfold setPinned.
    destruct (ClipboardDatabase.setPinned id pinned (database svc)) as [db done] eqn:Hpin.
    destruct done; cbn [negb fst database m_dataDir]; [|auto].
    pose proof (proj1 (setPinned_tables id pinned (database svc))) as Hoff.
    rewrite Hpin in Hoff. cbn [fst] in Hoff. rewrite Hoff. auto.
  - cbn. auto.
  - cbn. auto.
Qed.

(** As long as every capture draws an offer identifier not in use, every
    offer row has its blob file and offer identifiers stay distinct, whatever
    calls are made and whichever steps fail: an offer row is never committed
    without its file, and removing a selection never takes the file of
    another offer. *)
Theorem offer_rows_have_blob_files (cs : list Call) (svc : ClipboardService) :
  blobsPresent svc -> freshOfferIds cs svc -> blobsPresent (calls cs svc).
Proof.
  unfold calls. revert svc.
  induction cs as [|c cs IH]; intros svc Hinv Hfresh; cbn [fold_left].
  - exact Hinv.
  - cbn [freshOfferIds] in Hfresh. destruct Hfresh as [Hc Hrest].
    apply IH; [|exact Hrest]. apply call_blobsPresent; [exact Hinv|].
    destruct c; auto.
Qed.

End Blobs.

Lemma offer_rows_have_blob_files_witness :
  blobsPresent freshService
  /\ @freshOfferIds TestPlatform sessionCalls freshService
  /\ blobsPresent (@calls TestPlatform sessionCalls freshService).
Proof.
  assert (Hempty : blobsPresent freshService).
  { split; [constructor | intros o []]. }
  assert (Hfresh : @freshOfferIds TestPlatform sessionCalls freshService).
  { cbn. repeat split; auto; intros Hin; repeat (destruct Hin as [Hin|Hin]; [discriminate Hin|]);
      exact Hin. }
  split; [exact Hempty|]. split; [exact Hfresh|].
  exact (@offer_rows_have_blob_files TestPlatform sessionCalls freshService Hempty Hfresh).
Defined.

(** ** Failing steps, clearing, previews *)

Section Steps.
Context `{Platform}.

(** When inserting the selection row, indexing the content of a Text or
    Link, or opening the blob file fails, saveSelection leaves the database
    and the data directory exactly as they were: what the handler had written
    is rolled back and no file is created. The insertion signal is emitted
    all the same, with a default-constructed entry. *)
Theorem failed_step_rolls_back (env : SaveEnv) (selection : ClipboardSelection)
    (svc : ClipboardService) (offerData : QByteArray) (mime : QString) :
  reachesTransaction selection svc offerData mime ->
  hashStored (md5Hex offerData) (database svc) = false ->
  insertSelection_ok env = false
  \/ (indexedKind (getKind (mkOffer mime offerData)) = true
      /\ indexSelectionContent_ok env = false)
  \/ open_ok env = false ->
  saveSelection env selection svc = (svc, [Rollback; Emit (itemInserted defaultEntry)]).
Proof.
  intros (Hm & Hr & Hc & Hk & Hrep) Hh Hfail. unfold saveSelection.
  rewrite Hm, Hr, Hc, Hk, Hrep. cbn [negb orb].
  unfold ClipboardDatabase.transaction, saveHandler, ClipboardDatabase.tryBubbleUpSelection.
  unfold hashStored in Hh. rewrite Hh.
  unfold ClipboardDatabase.insertSelection, ClipboardDatabase.indexSelectionContent,
    ClipboardDatabase.insertOffer.
  destruct svc as [mon rdy key db files]. cbn [m_monitoring m_isEncryptionReady
    m_localEncryptionKey database m_dataDir] in *. subst mon rdy.
  revert Hfail.
  destruct (insertSelection_ok env), (indexSelectionContent_ok env), (insertOffer_ok env),
    (open_ok env), (getKind (mkOffer mime offerData)); cbn [negb indexedKind];
    intros Hfail; try reflexivity;
    exfalso; destruct Hfail as [Hf|[[Hf' Hf]|Hf]]; first [discriminate Hf | discriminate Hf'].
Qed.

(** removeAllSelections. When the database refuses, it returns false, emits
    nothing and changes nothing. When the database goes along, the metadata is
    cleared whatever the filesystem does next. If neither [fs::remove_all] nor
    [fs::create_directories] raises, it returns true, emits
    allSelectionsRemoved and leaves an empty data directory; a capture after
    it is inserted anew, whatever was stored before: its row and its blob are
    then all the store holds. If one of the two raises, nothing is emitted and
    nothing is returned, and a file that is left is byte for byte as it
    was. *)
Theorem removeAll_then_capture_inserts_anew (env : SaveEnv) (selection : ClipboardSelection)
    (svc : ClipboardService) (offerData : QByteArray) (mime : QString) :
  reachesTransaction selection svc offerData mime ->
  insertSelection_ok env = true -> indexSelectionContent_ok env = true ->
  insertOffer_ok env = true -> open_ok env = true -> write_ok env = true ->
  let cleared := fst (fst (removeAllSelections true Cleared svc)) in
  let saved := fst (saveSelection env selection cleared) in
  (forall fs, removeAllSelections false fs svc = (svc, [], Some false))
  /\ (forall fs, database (fst (fst (removeAllSelections true fs svc)))
                 = ClipboardDatabase.emptyDb)
  /\ snd (removeAllSelections true Cleared svc) = Some true
  /\ snd (fst (removeAllSelections true Cleared svc)) = [Emit allSelectionsRemoved]
  /\ m_dataDir cleared = ∅
  /\ (forall fs, fs <> Cleared ->
        snd (removeAllSelections true fs svc) = None
        /\ snd (fst (removeAllSelections true fs svc)) = []
        /\ forall name,
             m_dataDir (fst (fst (removeAllSelections true fs svc))) !! name = None
             \/ m_dataDir (fst (fst (removeAllSelections true fs svc))) !! name
                = m_dataDir svc !! name)
  /\ ClipboardDatabase.selectionTable (database saved)
     = [selectionRowOf env (sourceApp selection) offerData mime]
  /\ ClipboardDatabase.offerTable (database saved)
     = [offerRowOf env (m_localEncryptionKey svc) offerData mime]
  /\ m_dataDir saved
     = {[uuid_offer env := blobBytes (m_localEncryptionKey svc) offerData]}.
Proof.
  intros (Hm & Hr & Hc & Hk & Hrep) H1 H2 H3 H4 H5 cleared saved. subst saved cleared.
  split; [reflexivity|].
  split; [intros fs; rewrite removeAllSelections_state; reflexivity|].
  split; [reflexivity|]. split; [reflexivity|]. split; [reflexivity|].
  split.
  { intros fs Hfs. split; [|split].
    - destruct fs; [exfalso; apply Hfs; reflexivity | reflexivity | reflexivity].
    - destruct fs; [exfalso; apply Hfs; reflexivity | reflexivity | reflexivity].
    - intros name. rewrite removeAllSelections_state. cbn [m_dataDir].
      destruct fs as [|survives|]; [left; apply lookup_empty | | left; apply lookup_empty].
      apply survivors_lookup. }
  rewrite removeAllSelections_state.
  match goal with |- context [saveSelection env selection ?s] => set (cleared := s) end.
  assert (Hreach : reachesTransaction selection cleared offerData mime).
  { repeat split; assumption. }
  rewrite (saveSelection_insert env selection cleared offerData mime Hreach eq_refl H1 H2 H3 H4 H5).
  subst cleared. cbn [fst database m_dataDir m_localEncryptionKey
    ClipboardDatabase.selectionTable ClipboardDatabase.offerTable ClipboardDatabase.emptyDb app].
  repeat split.
Qed.

End Steps.

Lemma failed_step_rolls_back_witness :
  @saveSelection TestPlatform (mkEnv "s1" "o1" 5 true false true true true) copyFoo freshService
  = (freshService, [Rollback; Emit (itemInserted defaultEntry)]).
Proof.
  apply (@failed_step_rolls_back TestPlatform (mkEnv "s1" "o1" 5 true false true true true)
           copyFoo freshService "foo" "text/plain").
  - repeat split.
  - reflexivity.
  - right. left. split; reflexivity.
Defined.

Lemma removeAll_then_capture_inserts_anew_witness :
  let stored := fst (@saveSelection TestPlatform (fineEnv "s1" "o1" 5) copyFoo freshService) in
  let cleared := fst (fst (removeAllSelections true Cleared stored)) in
  let saved := fst (@saveSelection TestPlatform (fineEnv "s2" "o2" 9) copyFoo cleared) in
  m_dataDir stored !! "o1" = Some "foo"
  /\ snd (removeAllSelections true Cleared stored) = Some true
  /\ snd (removeAllSelections true CreateDirectoriesRaised stored) = None
  /\ ClipboardDatabase.selectionTable (database saved)
     = [@selectionRowOf TestPlatform (fineEnv "s2" "o2" 9) (Some "kitty") "foo" "text/plain"]
  /\ m_dataDir saved = {["o2" := "foo"]}.
Proof.
  cbv zeta.
  assert (Hreach : @reachesTransaction TestPlatform copyFoo
            (fst (@saveSelection TestPlatform (fineEnv "s1" "o1" 5) copyFoo freshService))
            "foo" "text/plain").
  { repeat split. }
  pose proof (@removeAll_then_capture_inserts_anew TestPlatform (fineEnv "s2" "o2" 9) copyFoo
                (fst (@saveSelection TestPlatform (fineEnv "s1" "o1" 5) copyFoo freshService))
                "foo" "text/plain" Hreach eq_refl eq_refl eq_refl eq_refl eq_refl) as Hthm.
  cbv zeta in Hthm. destruct Hthm as (_ & _ & Hret & _ & _ & Hraise & Hrows & _ & Hfiles).
  split; [vm_compute; reflexivity|]. split; [exact Hret|].
  split; [apply (Hraise CreateDirectoriesRaised); discriminate|].
  split; [exact Hrows | exact Hfiles].
Defined.

(** ** isClearSelection and the text preview *)

Lemma length_zero_empty (s : string) : String.length s = 0 <-> s = "".
Proof. destruct s; cbn; split; congruence. Qed.

Lemma sizes_fold (v : list ClipboardDataOffer) :
  forall acc,
    fold_left (fun acc item => acc + String.length (data item)) v acc = 0
    <-> acc = 0 /\ forall offer, In offer v -> data offer = "".
Proof.
  induction v as [|o v IH]; intros acc; cbn [fold_left].
  - split; [intros ->; split; [reflexivity | intros offer []] | tauto].
  - rewrite IH. split.
    + intros [Hsum Hv].
      assert (acc = 0 /\ String.length (data o) = 0) as [Hacc Hlen] by lia.
      split; [exact Hacc|]. intros offer [<-|Hin]; [apply length_zero_empty, Hlen | auto].
    + intros [-> Hv]. split.
      * rewrite (Hv o (or_introl eq_refl)). reflexivity.
      * intros offer Hin. apply Hv. right. exact Hin.
Qed.

(** isClearSelection holds exactly of the selections all of whose offers
    carry no bytes, the selection with no offers among them. *)
Theorem isClearSelection_iff_all_empty (v : list ClipboardDataOffer) :
  isClearSelection v = true <-> forall offer, In offer v -> data offer = "".
Proof.
  unfold isClearSelection. rewrite Nat.eqb_eq, sizes_fold. tauto.
Qed.

(** ** What saveSelection reads off the filtered offers *)








Lemma mid0_length (n : nat) (s : string) :
  String.length (mid0 n s) = Nat.min n (String.length s).
Proof.
  unfold mid0. revert s. induction n as [|n IH]; intros [|c s]; cbn; try reflexivity.
  rewrite IH. reflexivity.
Qed.

Lemma mid0_prefix (n : nat) (s : string) : startsWith s (mid0 n s) = true.
Proof.
  unfold mid0. revert s. induction n as [|n IH]; intros [|c s]; cbn; try reflexivity.
  rewrite Ascii.eqb_refl, IH. reflexivity.
Qed.

(** The preview of a text offer is the decoding, as a [QString], of the
    first 50 bytes of its simplified payload, of all of them when there are
    fewer; an offer that is neither text nor image is previewed as Unnamed. *)
Theorem text_preview_decodes_first_50_bytes `{Platform} (offer : ClipboardDataOffer) :
  (startsWith (mimeType offer) "text/" = true ->
     exists cut,
       getOfferTextPreview offer = QString_fromUtf8 cut
       /\ String.length cut = Nat.min 50 (String.length (simplified (data offer)))
       /\ startsWith (simplified (data offer)) cut = true)
  /\ (startsWith (mimeType offer) "text/" = false ->
      startsWith (mimeType offer) "image/" = false ->
      getOfferTextPreview offer = "Unnamed").
Proof.
  unfold getOfferTextPreview. split.
  - intros ->. exists (mid0 50 (simplified (data offer))).
    split; [reflexivity|]. split; [apply mid0_length | apply mid0_prefix].
  - intros -> ->. reflexivity.
Qed.

Lemma text_preview_decodes_first_50_bytes_witness :
  exists cut,
    @getOfferTextPreview TestPlatform
      (mkOffer "text/plain"
         "The quick brown fox jumps over the lazy dog, and then it jumps back again.")
    = @QString_fromUtf8 TestPlatform cut
    /\ String.length cut = 50.
Proof.
  destruct (proj1 (@text_preview_decodes_first_50_bytes TestPlatform
              (mkOffer "text/plain"
                 "The quick brown fox jumps over the lazy dog, and then it jumps back again."))
              eq_refl) as (cut & Hpreview & Hlength & _).
  exists cut. split; [exact Hpreview | exact Hlength].
Defined.

(** ** The action panel state *)

Lemma findPrimaryIn_find (actions : list AbstractAction) :
  findPrimaryIn actions = find isPrimary actions.
Proof.
  induction actions as [|a actions IH]; cbn; [reflexivity|].
  destruct (isPrimary a); [reflexivity | exact IH].
Qed.

Lemma findPrimaryAmong_app (s1 s2 : list ActionPanelSectionState) :
  findPrimaryAmong (s1 ++ s2)
  = match findPrimaryAmong s1 with
    | Some action => Some action
    | None => findPrimaryAmong s2
    end.
Proof.
  induction s1 as [|s s1 IH]; cbn [app findPrimaryAmong]; [reflexivity|].
  destruct (findPrimaryIn (m_actions s)); [reflexivity | exact IH].
Qed.

(** findPrimaryAction returns the first primary action in the order of the
    sections and, within a section, of its actions; it returns none exactly
    when no action of any section is primary; and creating a section does not
    change the action found. *)
Theorem findPrimaryAction_first_in_order (panel : ActionPanelState) :
  findPrimaryAction panel = find isPrimary (concat (map m_actions (m_sections panel)))
  /\ (findPrimaryAction panel = None <->
      forall section action, In section (m_sections panel) ->
        In action (m_actions section) -> isPrimary action = false)
  /\ (forall name, findPrimaryAction (createSection name panel) = findPrimaryAction panel).
Proof.
  unfold findPrimaryAction.
  assert (Hfind : forall sections,
            findPrimaryAmong sections = find isPrimary (concat (map m_actions sections))).
  { induction sections as [|s sections IH]; cbn [findPrimaryAmong map concat]; [reflexivity|].
    rewrite find_app_split, findPrimaryIn_find, IH. reflexivity. }
  split; [apply Hfind|]. split.
  - rewrite Hfind, find_none_iff. split.
    + intros Hnone section action Hs Ha. apply Hnone. apply in_concat.
      exists (m_actions section). split; [apply in_map, Hs | exact Ha].
    + intros Hnone action Hin. apply in_concat in Hin as (actions & Hactions & Ha).
      apply in_map_iff in Hactions as (section & <- & Hs). exact (Hnone section action Hs Ha).
  - intros name. unfold createSection. cbn [m_sections].
    rewrite findPrimaryAmong_app. cbn [findPrimaryAmong findPrimaryIn m_actions].
    destruct (findPrimaryAmong (m_sections panel)); reflexivity.
Qed.

(** ** Across sessions *)

Section Sessions.
Context `{Platform} `{Decryption}.

(** What one session stores encrypted the next session reads back. The
    first session acquires a key and stores a capture in full; a new process
    on the same keychain, database and data directory, whose read job does
    not fail, acquires the same key, and retrieveSelectionById returns the
    capture's mime type and bytes, given that decryption undoes encryption
    under that key. *)
Theorem encrypted_store_survives_restart (env1 env2 : KeychainEnv)
    (keychain : gmap QString QByteArray) (key : QByteArray)
    (env : SaveEnv) (selection : ClipboardSelection) (svc : ClipboardService)
    (offerData : QByteArray) (mime : QString) (monitoring : bool) :
  snd (getLocalEncryptionKey env1 keychain) = Some key ->
  let session1 := snd (acquireKey env1 keychain svc) in
  reachesTransaction selection session1 offerData mime ->
  hashStored (md5Hex offerData) (database session1) = false ->
  insertSelection_ok env = true -> indexSelectionContent_ok env = true ->
  insertOffer_ok env = true -> open_ok env = true -> write_ok env = true ->
  (forall o, In o (ClipboardDatabase.offerTable (database session1)) ->
             op_selectionId o <> uuid_selection env) ->
  readFails env2 = false ->
  AES256GCM_decrypt (AES256GCM_encrypt offerData key) key = offerData ->
  let stored := fst (saveSelection env selection session1) in
  let second := snd (acquireKey env2 (fst (acquireKey env1 keychain svc))
                       (restart monitoring stored)) in
  m_localEncryptionKey second = Some key
  /\ m_isEncryptionReady second = true
  /\ retrieveSelectionById (uuid_selection env) second
     = Some (mkSelection [mkOffer mime offerData] None).
Proof.
  intros Hkey session1. subst session1. unfold acquireKey.
  pose proof (acquired_key_is_held env1 keychain key Hkey) as Hheld.
  destruct (getLocalEncryptionKey env1 keychain) as [keychain1 res1].
  cbn [fst snd] in *. subst res1.
  intros Hreach Hnew H1 H2 H3 H4 H5 Hfresh Hread Hcrypt.
  destruct (findSelection_after_insert env selection _ offerData mime
              Hreach Hnew H1 H2 H3 H4 H5 Hfresh) as [Hfind Hblob].
  unfold getLocalEncryptionKey. rewrite Hread, Hheld.
  set (stored := fst (saveSelection env selection (encryptionKeyResolved (Some key) svc))) in *.
  clearbody stored. cbn [encryptionKeyResolved m_localEncryptionKey] in Hfind, Hblob.
  cbn [fst snd encryptionKeyResolved restart m_localEncryptionKey m_isEncryptionReady].
  split; [reflexivity|]. split; [reflexivity|].
  unfold retrieveSelectionById, encryptionKeyResolved, restart.
  cbn [database m_dataDir m_localEncryptionKey].
  rewrite Hfind. cbn [populate offerRowOf op_id]. rewrite Hblob.
  unfold offerRowOf, markerOf, decryptOffer, blobBytes. cbn [op_mimeType op_encryption].
  rewrite Hcrypt.
  reflexivity.
Qed.

End Sessions.

Lemma encrypted_store_survives_restart_witness :
  let session1 := snd (acquireKey (mkKeychainEnv false "key" false) ∅
                      (mkService true false None ClipboardDatabase.emptyDb ∅)) in
  let stored := fst (@saveSelection TestPlatform (fineEnv "s1" "o1" 5) copyFoo session1) in
  let second :=
    snd (acquireKey (mkKeychainEnv false "other" false)
           (fst (acquireKey (mkKeychainEnv false "key" false) ∅
                   (mkService true false None ClipboardDatabase.emptyDb ∅)))
           (restart true stored)) in
  m_localEncryptionKey second = Some "key"
  /\ m_isEncryptionReady second = true
  /\ @retrieveSelectionById TestDecryption "s1" second
     = Some (mkSelection [mkOffer "text/plain" "foo"] None).
Proof.
  cbv zeta.
  refine (@encrypted_store_survives_restart TestPlatform TestDecryption
            (mkKeychainEnv false "key" false) (mkKeychainEnv false "other" false) ∅ "key"
            (fineEnv "s1" "o1" 5) copyFoo
            (mkService true false None ClipboardDatabase.emptyDb ∅)
            "foo" "text/plain" true eq_refl _ eq_refl eq_refl eq_refl eq_refl eq_refl eq_refl
            _ eq_refl eq_refl).
  - repeat split.
  - intros o [].
Defined.
